(** * Article lifecycle service (ArticlesService) over a relational store

    Shallow embedding of
    [backend/src/api/v1.0/articles/articles.service.ts]: the four tables the
    service touches, the database client calls it issues, and the service
    methods [createArticle], [getAll], [getArticleById], [updateArticle] and
    [deleteArticle], written as state-passing computations that can be
    rejected with an exception. *)

From Stdlib Require Import ZArith String List Bool Arith Lia.
Import ListNotations.
Local Open Scope string_scope.
Local Open Scope list_scope.
Local Open Scope Z_scope.

(** ** Rows and requests *)

(** A row of the user table; the service only ever reads its identifier. *)
Record User := { user_id : Z }.

(** A row of the article table, which is also what [ArticleResponseTo]
    carries.  The [created] and [modified] timestamps are left out: no
    method of the service reads or writes them itself. *)
Record Article := {
  article_id : Z;
  article_userId : Z;
  article_title : string;
  article_content : string
}.

Record Sticker := { sticker_id : Z; sticker_name : string }.

(** A row of the join table. *)
Record ArticleSticker := { articleId : Z; stickerId : Z }.

(** [ArticleRequestTo]: [stickers] is optional ([stickers?: string[]]). *)
Record ArticleRequestTo := {
  userId : Z;
  title : string;
  content : string;
  stickers : option (list string)
}.

(** What is left of a request after [const { stickers, ...articleData }]. *)
Record ArticleData := {
  data_userId : Z;
  data_title : string;
  data_content : string
}.

Definition articleData_of (article : ArticleRequestTo) : ArticleData :=
  {| data_userId := userId article;
     data_title := title article;
     data_content := content article |}.

(** ** The store *)

Record Db := {
  db_user : list User;
  db_article : list Article;
  db_sticker : list Sticker;
  db_articleSticker : list ArticleSticker
}.

(** ** Exceptions and settled promises *)

(** The exception classes the service imports from the framework, and the
    errors of the database client, which the service lets through as they
    are unless it catches them. *)
Inductive Exception :=
| UnauthorizedException (message : string)
| ForbiddenException (message : string)
| NotFoundException (message : string)
| InternalServerErrorException (message : string)
| PrismaError (detail : string).

(** The status code the framework answers with for each class. *)
Definition getStatus (e : Exception) : Z :=
  match e with
  | UnauthorizedException _ => 401
  | ForbiddenException _ => 403
  | NotFoundException _ => 404
  | InternalServerErrorException _ => 500
  | PrismaError _ => 500
  end.

Inductive Settled (A : Type) :=
| Fulfilled (a : A)
| Rejected (e : Exception).
Arguments Fulfilled {A} a.
Arguments Rejected {A} e.

(** An [async] method: it runs against the store and leaves a store and a
    settled promise.  A rejection keeps the writes made so far; only
    [transaction] undoes them. *)
Definition Task (A : Type) : Type := Db -> Db * Settled A.

Definition ret {A} (a : A) : Task A := fun db => (db, Fulfilled a).

Definition throw {A} (e : Exception) : Task A := fun db => (db, Rejected e).

Definition bind {A B} (m : Task A) (k : A -> Task B) : Task B :=
  fun db =>
    match m db with
    | (db1, Fulfilled a) => k a db1
    | (db1, Rejected e) => (db1, Rejected e)
    end.

Notation "x <- m ;; k" := (bind m (fun x => k))
  (at level 61, m at next level, right associativity).
Notation "m ;;; k" := (bind m (fun _ => k))
  (at level 61, right associativity).

(** [try { body } catch { handler }]. *)
Definition try_catch {A} (body : Task A) (handler : Exception -> Task A)
  : Task A :=
  fun db =>
    match body db with
    | (db1, Fulfilled a) => (db1, Fulfilled a)
    | (db1, Rejected e) => handler e db1
    end.

(** ** Calls to the database client *)

Inductive Call :=
| UserFindUnique (id : Z)
| ArticleFindUniqueId (id : Z)
| ArticleFindUniqueTitle (t : string)
| ArticleFindMany
| ArticleCreate (data : ArticleData)
| ArticleUpdate (id : Z) (data : ArticleRequestTo)
| ArticleDelete (id : Z)
| StickerFindFirst (name : string)
| StickerCreate (name : string)
| StickerDelete (id : Z)
| ArticleStickerCreateMany (rows : list ArticleSticker)
| ArticleStickerFindMany (aid : Z)
| ArticleStickerDeleteMany (aid : Z)
| ArticleStickerCount (sid : Z) (notAid : Z)
| TransactionBegin
| TransactionCommit.

(** Modelled from the spec: the database client and its schema are not
    among the sources, and the spec leaves open which calls the database
    refuses ("constraint violations, connection errors", simulated
    failures).  A [Faults] says which call is refused in which store, and
    with what error; the service is stated for every such choice. *)
Definition Faults := Call -> Db -> option string.

Definition no_fault : Faults := fun _ _ => None.

(** Modelled from the spec: "Insert returning the created record with
    generated identifier".  The generated identifier is taken above every
    identifier in use. *)
Definition next_id (ids : list Z) : Z := 1 + fold_right Z.max 0 ids.

Definition has_article_id (id : Z) (a : Article) : bool := article_id a =? id.
Definition has_title (t : string) (a : Article) : bool :=
  String.eqb (article_title a) t.
Definition has_sticker_id (id : Z) (s : Sticker) : bool := sticker_id s =? id.
Definition has_name (n : string) (s : Sticker) : bool :=
  String.eqb (sticker_name s) n.
Definition of_article (aid : Z) (l : ArticleSticker) : bool :=
  articleId l =? aid.
(** [where: { stickerId, NOT: { articleId } }]. *)
Definition other_connection (sid notAid : Z) (l : ArticleSticker) : bool :=
  (stickerId l =? sid) && negb (articleId l =? notAid).

Definition set_article (rows : list Article) (db : Db) : Db :=
  {| db_user := db_user db; db_article := rows;
     db_sticker := db_sticker db;
     db_articleSticker := db_articleSticker db |}.
Definition set_sticker (rows : list Sticker) (db : Db) : Db :=
  {| db_user := db_user db; db_article := db_article db;
     db_sticker := rows;
     db_articleSticker := db_articleSticker db |}.
Definition set_articleSticker (rows : list ArticleSticker) (db : Db) : Db :=
  {| db_user := db_user db; db_article := db_article db;
     db_sticker := db_sticker db;
     db_articleSticker := rows |}.

(** The row an update writes: every field the request carries. *)
Definition updated_row (id : Z) (data : ArticleRequestTo) : Article :=
  {| article_id := id;
     article_userId := userId data;
     article_title := title data;
     article_content := content data |}.

Definition overwrite (id : Z) (data : ArticleRequestTo) (a : Article)
  : Article :=
  if has_article_id id a then updated_row id data else a.

Module Prisma.
Section Client.

Variable fault : Faults.

(** Modelled from the spec: a lookup or count of the database client
    (not among the sources) is refused, or answered from the store, which
    it leaves alone. *)
Definition query {A} (c : Call) (answer : Db -> A) : Task A :=
  fun db =>
    match fault c db with
    | Some d => (db, Rejected (PrismaError d))
    | None => (db, Fulfilled (answer db))
    end.

(** Modelled from the spec: an insert, update or delete of the database
    client is refused by the database, or fails on its own terms, or is
    done.  A statement that fails writes nothing. *)
Definition command {A} (c : Call) (exec : Db -> string + Db * A) : Task A :=
  fun db =>
    match fault c db with
    | Some d => (db, Rejected (PrismaError d))
    | None =>
        match exec db with
        | inl d => (db, Rejected (PrismaError d))
        | inr (db1, a) => (db1, Fulfilled a)
        end
    end.

(** Modelled from the spec: "Point lookups by unique key (id, title,
    name) returning a record or an absent-marker". *)
Definition user_findUnique (id : Z) : Task (option User) :=
  query (UserFindUnique id)
    (fun db => find (fun u => user_id u =? id) (db_user db)).

(** Modelled from the spec: point lookup of an article by id. *)
Definition article_findUnique_id (id : Z) : Task (option Article) :=
  query (ArticleFindUniqueId id)
    (fun db => find (has_article_id id) (db_article db)).

(** Modelled from the spec: point lookup of an article by title. *)
Definition article_findUnique_title (t : string) : Task (option Article) :=
  query (ArticleFindUniqueTitle t)
    (fun db => find (has_title t) (db_article db)).

(** Modelled from the spec: all rows of the article table. *)
Definition article_findMany : Task (list Article) :=
  query ArticleFindMany db_article.

(** Modelled from the spec: "Insert returning the created record with
    generated identifier"; the title is "unique across all articles" (the
    service looks it up with [findUnique]), so an insert of a title in use
    fails. *)
Definition article_create (data : ArticleData) : Task Article :=
  command (ArticleCreate data) (fun db =>
    if existsb (has_title (data_title data)) (db_article db)
    then inl "Unique constraint failed on the fields: (title)"
    else
      let row := {| article_id := next_id (map article_id (db_article db));
                    article_userId := data_userId data;
                    article_title := data_title data;
                    article_content := data_content data |} in
      inr (set_article (db_article db ++ [row]) db, row)).

(** Modelled from the spec: "Update-by-id returning the updated record";
    it writes every field of [data], fails when no row has the id, and
    fails when the new title is another article's. *)
Definition article_update (id : Z) (data : ArticleRequestTo)
  : Task Article :=
  command (ArticleUpdate id data) (fun db =>
    match find (has_article_id id) (db_article db) with
    | None => inl "Record to update not found."
    | Some _ =>
        if existsb (fun a => has_title (title data) a
                             && negb (has_article_id id a)) (db_article db)
        then inl "Unique constraint failed on the fields: (title)"
        else inr (set_article (map (overwrite id data) (db_article db)) db,
                  updated_row id data)
    end).

(** Modelled from the spec: "Delete-by-id"; deleting a row that is not
    there fails ("not-found-on-delete"). *)
Definition article_delete (id : Z) : Task Article :=
  command (ArticleDelete id) (fun db =>
    match find (has_article_id id) (db_article db) with
    | None => inl "Record to delete does not exist."
    | Some a =>
        inr (set_article
               (filter (fun x => negb (has_article_id id x)) (db_article db))
               db, a)
    end).

(** Modelled from the spec: "look up an existing tag by exact name
    match"; the first such row, as sticker names are not a key. *)
Definition sticker_findFirst (name : string) : Task (option Sticker) :=
  query (StickerFindFirst name)
    (fun db => find (has_name name) (db_sticker db)).

(** Modelled from the spec: insert of a sticker row with a generated
    identifier. *)
Definition sticker_create (name : string) : Task Sticker :=
  command (StickerCreate name) (fun db =>
    let row := {| sticker_id := next_id (map sticker_id (db_sticker db));
                  sticker_name := name |} in
    inr (set_sticker (db_sticker db ++ [row]) db, row)).

(** Modelled from the spec: "Delete-by-id" on the sticker table;
    deleting a row that is not there fails. *)
Definition sticker_delete (id : Z) : Task Sticker :=
  command (StickerDelete id) (fun db =>
    match find (has_sticker_id id) (db_sticker db) with
    | None => inl "Record to delete does not exist."
    | Some s =>
        inr (set_sticker
               (filter (fun x => negb (has_sticker_id id x)) (db_sticker db))
               db, s)
    end).

(** Modelled from the spec: "Bulk insert of join rows", returning how
    many were inserted. *)
Definition articleSticker_createMany (rows : list ArticleSticker)
  : Task nat :=
  command (ArticleStickerCreateMany rows) (fun db =>
    inr (set_articleSticker (db_articleSticker db ++ rows) db, length rows)).

(** Modelled from the spec: "Bulk lookup returning all records matching
    a foreign-key filter". *)
Definition articleSticker_findMany (aid : Z) : Task (list ArticleSticker) :=
  query (ArticleStickerFindMany aid)
    (fun db => filter (of_article aid) (db_articleSticker db)).

(** Modelled from the spec: deletion of all link rows of an article,
    returning how many were deleted. *)
Definition articleSticker_deleteMany (aid : Z) : Task nat :=
  command (ArticleStickerDeleteMany aid) (fun db =>
    inr (set_articleSticker
           (filter (fun l => negb (of_article aid l)) (db_articleSticker db))
           db,
         length (filter (of_article aid) (db_articleSticker db)))).

(** Modelled from the spec: "Count of records matching a filter". *)
Definition articleSticker_count (sid notAid : Z) : Task nat :=
  query (ArticleStickerCount sid notAid)
    (fun db =>
       length (filter (other_connection sid notAid) (db_articleSticker db))).

(** Modelled from the spec: [$transaction(async (tx) => body)], "a block
    of the above operations that commits or rolls back as a unit, with
    nested calls inside the block observing each other's uncommitted
    writes".  When [body] is rejected, or the commit is refused, the store
    is what it was when the transaction began. *)
Definition transaction {A} (body : Task A) : Task A :=
  fun db =>
    match fault TransactionBegin db with
    | Some d => (db, Rejected (PrismaError d))
    | None =>
        match body db with
        | (db1, Fulfilled a) =>
            match fault TransactionCommit db1 with
            | Some d => (db, Rejected (PrismaError d))
            | None => (db1, Fulfilled a)
            end
        | (_, Rejected e) => (db, Rejected e)
        end
    end.

End Client.
End Prisma.

(** ** The service *)

Module ArticlesService.
Section Service.

Variable fault : Faults.

(** The loop of [createArticle] over the requested names; [stickerRecords]
    is the array it pushes to. *)
Fixpoint resolveStickers (names : list string) (stickerRecords : list Sticker)
  : Task (list Sticker) :=
  match names with
  | [] => ret stickerRecords
  | sticker :: rest =>
      find_sticker <- Prisma.sticker_findFirst fault sticker ;;
      match find_sticker with
      | None =>
          newSticker <- Prisma.sticker_create fault sticker ;;
          resolveStickers rest (stickerRecords ++ [newSticker])
      | Some found =>
          resolveStickers rest (stickerRecords ++ [found])
      end
  end.

Definition link_to (newArticle : Article) (sticker : Sticker)
  : ArticleSticker :=
  {| articleId := article_id newArticle; stickerId := sticker_id sticker |}.

(** The callback [createArticle] hands to [$transaction]. *)
Definition createArticle_tx (article : ArticleRequestTo) : Task Article :=
  stickerRecords <-
    match stickers article with
    | Some names => resolveStickers names []
    | None => ret []
    end ;;
  newArticle <- Prisma.article_create fault (articleData_of article) ;;
  (if (0 <? length stickerRecords)%nat
   then Prisma.articleSticker_createMany fault
          (map (link_to newArticle) stickerRecords) ;;; ret tt
   else ret tt) ;;;
  ret newArticle.

Definition createArticle (article : ArticleRequestTo) : Task Article :=
  user <- Prisma.user_findUnique fault (userId article) ;;
  match user with
  | None => throw (UnauthorizedException "User with userId not found!")
  | Some _ =>
      articleWithTitle <-
        Prisma.article_findUnique_title fault (title article) ;;
      match articleWithTitle with
      | Some _ =>
          throw (ForbiddenException "Article with title already exists!")
      | None => Prisma.transaction fault (createArticle_tx article)
      end
  end.

Definition getAll : Task (list Article) := Prisma.article_findMany fault.

Definition getArticleById (id : Z) : Task Article :=
  article <- Prisma.article_findUnique_id fault id ;;
  match article with
  | None => throw (UnauthorizedException "Article with id not found!")
  | Some a => ret a
  end.

Definition updateArticle (id : Z) (article : ArticleRequestTo)
  : Task Article :=
  existArticle <- Prisma.article_findUnique_id fault id ;;
  match existArticle with
  | None => throw (UnauthorizedException "Article with id not found!")
  | Some _ =>
      try_catch (Prisma.article_update fault id article)
        (fun _ =>
           throw (InternalServerErrorException "Database error occurred"))
  end.

(** The loop of [deleteArticle] over the sticker ids of the removed links. *)
Fixpoint removeOrphans (id : Z) (stickerIds : list Z) : Task unit :=
  match stickerIds with
  | [] => ret tt
  | sid :: rest =>
      otherConnections <- Prisma.articleSticker_count fault sid id ;;
      (if (otherConnections =? 0)%nat
       then Prisma.sticker_delete fault sid ;;; ret tt
       else ret tt) ;;;
      removeOrphans id rest
  end.

(** The callback [deleteArticle] hands to [$transaction].  The stickers
    joined to the link rows ([include: { sticker: true }]) are not read:
    only [stickerId] is. *)
Definition deleteArticle_tx (id : Z) : Task unit :=
  articleStickers <- Prisma.articleSticker_findMany fault id ;;
  let stickerIds := map stickerId articleStickers in
  Prisma.articleSticker_deleteMany fault id ;;;
  removeOrphans id stickerIds ;;;
  Prisma.article_delete fault id ;;;
  ret tt.

Definition deleteArticle (id : Z) : Task unit :=
  existArticle <- Prisma.article_findUnique_id fault id ;;
  match existArticle with
  | None => throw (NotFoundException "Article not found")
  | Some _ => Prisma.transaction fault (deleteArticle_tx id)
  end.

End Service.
End ArticlesService.

Import ArticlesService.

(** ** Predicates on stores used by the statements *)

(** How many sticker rows carry the name [n]. *)
Definition count_name (n : string) (rows : list Sticker) : nat :=
  length (filter (has_name n) rows).

(** How many link rows join article [aid] to sticker [sid]. *)
Definition count_link (aid sid : Z) (rows : list ArticleSticker) : nat :=
  length (filter (fun l => (articleId l =? aid) && (stickerId l =? sid)) rows).

(** Some link row of article [aid] points to sticker [sid]. *)
Definition linked_to (aid sid : Z) (rows : list ArticleSticker) : bool :=
  existsb (fun l => of_article aid l && (stickerId l =? sid)) rows.

(** Some link row of another article than [aid] points to sticker [sid]. *)
Definition linked_elsewhere (aid sid : Z) (rows : list ArticleSticker) : bool :=
  existsb (other_connection sid aid) rows.

(** Some link row points to sticker [sid]. *)
Definition referenced (sid : Z) (rows : list ArticleSticker) : bool :=
  existsb (fun l => stickerId l =? sid) rows.

(** Every sticker row is referenced by at least one link row. *)
Definition no_orphan (db : Db) : bool :=
  forallb (fun s => referenced (sticker_id s) (db_articleSticker db))
          (db_sticker db).

(** No identifier occurs twice. *)
Fixpoint distinct (ids : list Z) : bool :=
  match ids with
  | [] => true
  | x :: rest => negb (existsb (Z.eqb x) rest) && distinct rest
  end.

(** The links of article [id] point to stickers that exist, each once. *)
Definition links_sound (id : Z) (db : Db) : bool :=
  let mine := filter (of_article id) (db_articleSticker db) in
  distinct (map stickerId mine)
  && forallb (fun l => existsb (has_sticker_id (stickerId l)) (db_sticker db))
             mine.

Definition link_eqb (x y : ArticleSticker) : bool :=
  (articleId x =? articleId y) && (stickerId x =? stickerId y).

Fixpoint has_repeat (rows : list ArticleSticker) : bool :=
  match rows with
  | [] => false
  | l :: rest => existsb (link_eqb l) rest || has_repeat rest
  end.

(** A database whose join table has the pair (article, sticker) as its
    key: a bulk insert that would leave the same pair twice is refused. *)
Definition composite_key : Faults :=
  fun c db =>
    match c with
    | ArticleStickerCreateMany rows =>
        if has_repeat (db_articleSticker db ++ rows)
        then Some "Unique constraint failed on the fields: (articleId,stickerId)"
        else None
    | _ => None
    end.

(** A database that refuses every bulk insert of link rows. *)
Definition createMany_fails : Faults :=
  fun c _ =>
    match c with
    | ArticleStickerCreateMany _ => Some "simulated failure"
    | _ => None
    end.

(** A database that refuses every article update. *)
Definition update_fails : Faults :=
  fun c _ =>
    match c with
    | ArticleUpdate _ _ => Some "connection lost"
    | _ => None
    end.

(** ** What the service is expected to leave behind *)

(** The names a request asks for; none when [stickers] is absent. *)
Definition requested (article : ArticleRequestTo) : list string :=
  match stickers article with
  | Some names => names
  | None => []
  end.

(** The row [createArticle] inserts for a request in a store. *)
Definition created_row (article : ArticleRequestTo) (db : Db) : Article :=
  {| article_id := next_id (map article_id (db_article db));
     article_userId := userId article;
     article_title := title article;
     article_content := content article |}.

(** The sticker [s] is deleted by the loop over [stickerIds]: one of the
    ids is its own and has no connection left in [links]. *)
Definition collected (id : Z) (links : list ArticleSticker)
  (stickerIds : list Z) (s : Sticker) : bool :=
  existsb (fun sid => has_sticker_id sid s
                      && (length (filter (other_connection sid id) links)
                          =? 0)%nat)
          stickerIds.

(** The sticker [s] outlives the deletion of article [id]: the article
    was not linked to it, or another article still is. *)
Definition kept (id : Z) (links : list ArticleSticker) (s : Sticker) : bool :=
  negb (linked_to id (sticker_id s) links)
  || linked_elsewhere id (sticker_id s) links.

(** ** Stores and requests used in the examples *)

Definition post (owner : Z) (t : string) (tags : option (list string))
  : ArticleRequestTo :=
  {| userId := owner; title := t; content := "Content"; stickers := tags |}.

(** Two users, nothing else. *)
Definition two_users : Db :=
  {| db_user := [{| user_id := 1 |}; {| user_id := 2 |}];
     db_article := [];
     db_sticker := [];
     db_articleSticker := [] |}.

(** [two_users] after user 1 posted "T" without stickers. *)
Definition one_article : Db :=
  {| db_user := [{| user_id := 1 |}; {| user_id := 2 |}];
     db_article := [{| article_id := 1; article_userId := 1;
                       article_title := "T"; article_content := "Content" |}];
     db_sticker := [];
     db_articleSticker := [] |}.

(** Articles X and Y of user 1: X is tagged "only-x" and "shared", Y is
    tagged "shared". *)
Definition x_and_y : Db :=
  {| db_user := [{| user_id := 1 |}; {| user_id := 2 |}];
     db_article := [{| article_id := 1; article_userId := 1;
                       article_title := "X"; article_content := "Content" |};
                    {| article_id := 2; article_userId := 1;
                       article_title := "Y"; article_content := "Content" |}];
     db_sticker := [{| sticker_id := 1; sticker_name := "only-x" |};
                    {| sticker_id := 2; sticker_name := "shared" |}];
     db_articleSticker := [{| articleId := 1; stickerId := 1 |};
                           {| articleId := 1; stickerId := 2 |};
                           {| articleId := 2; stickerId := 2 |}] |}.

(** [x_and_y] after X was deleted. *)
Definition only_y : Db :=
  {| db_user := [{| user_id := 1 |}; {| user_id := 2 |}];
     db_article := [{| article_id := 2; article_userId := 1;
                       article_title := "Y"; article_content := "Content" |}];
     db_sticker := [{| sticker_id := 2; sticker_name := "shared" |}];
     db_articleSticker := [{| articleId := 2; stickerId := 2 |}] |}.

(** [two_users] after user 1 posted "T" tagged "a", "a", "b", when the
    database accepts repeated link rows. *)
Definition tagged_twice : Db :=
  {| db_user := [{| user_id := 1 |}; {| user_id := 2 |}];
     db_article := [{| article_id := 1; article_userId := 1;
                       article_title := "T"; article_content := "Content" |}];
     db_sticker := [{| sticker_id := 1; sticker_name := "a" |};
                    {| sticker_id := 2; sticker_name := "b" |}];
     db_articleSticker := [{| articleId := 1; stickerId := 1 |};
                           {| articleId := 1; stickerId := 1 |};
                           {| articleId := 1; stickerId := 2 |}] |}.

(** The store the callback had reached when the bulk insert of links was
    refused: the article row and both sticker rows were in. *)
Definition half_done : Db :=
  {| db_user := [{| user_id := 1 |}; {| user_id := 2 |}];
     db_article := [{| article_id := 1; article_userId := 1;
                       article_title := "T"; article_content := "Content" |}];
     db_sticker := [{| sticker_id := 1; sticker_name := "red" |};
                    {| sticker_id := 2; sticker_name := "blue" |}];
     db_articleSticker := [] |}.

(** ** Further predicates, databases and stores *)

(** Every link row joins an article that exists to a sticker that exists. *)
Definition links_resolve (db : Db) : bool :=
  forallb (fun l => existsb (has_article_id (articleId l)) (db_article db)
                    && existsb (has_sticker_id (stickerId l)) (db_sticker db))
          (db_articleSticker db).

(** No string occurs twice. *)
Fixpoint distinct_strings (l : list string) : bool :=
  match l with
  | [] => true
  | x :: rest => negb (existsb (String.eqb x) rest) && distinct_strings rest
  end.

(** No two article rows carry the same title. *)
Definition unique_titles (db : Db) : bool :=
  distinct_strings (map article_title (db_article db)).

(** Every requested name is the name of a sticker row. *)
Definition all_stored (names : list string) (db : Db) : bool :=
  forallb (fun n => existsb (has_name n) (db_sticker db)) names.

(** No two sticker rows carry the same name. *)
Definition unique_names (db : Db) : bool :=
  distinct_strings (map sticker_name (db_sticker db)).

(** The database refuses nothing, except possibly bulk inserts of links. *)
Definition only_createMany_refused (fault : Faults) : Prop :=
  forall c db, fault c db <> None ->
               exists rows, c = ArticleStickerCreateMany rows.

(** A database that refuses every commit. *)
Definition commit_fails : Faults :=
  fun c _ =>
    match c with
    | TransactionCommit => Some "commit refused"
    | _ => None
    end.

(** A database that refuses every deletion of a sticker. *)
Definition sticker_delete_fails : Faults :=
  fun c _ =>
    match c with
    | StickerDelete _ => Some "sticker is in use"
    | _ => None
    end.

(** [x_and_y] after user 2 posted "Z" tagged "shared" and "new". *)
Definition x_y_and_z : Db :=
  {| db_user := [{| user_id := 1 |}; {| user_id := 2 |}];
     db_article := [{| article_id := 1; article_userId := 1;
                       article_title := "X"; article_content := "Content" |};
                    {| article_id := 2; article_userId := 1;
                       article_title := "Y"; article_content := "Content" |};
                    {| article_id := 3; article_userId := 2;
                       article_title := "Z"; article_content := "Content" |}];
     db_sticker := [{| sticker_id := 1; sticker_name := "only-x" |};
                    {| sticker_id := 2; sticker_name := "shared" |};
                    {| sticker_id := 3; sticker_name := "new" |}];
     db_articleSticker := [{| articleId := 1; stickerId := 1 |};
                           {| articleId := 1; stickerId := 2 |};
                           {| articleId := 2; stickerId := 2 |};
                           {| articleId := 3; stickerId := 2 |};
                           {| articleId := 3; stickerId := 3 |}] |}.

(** ** The users service

    Shallow embedding of [UsersService] ([users.service.ts]): it works on
    the user table alone, whose rows carry a login, a password and two
    names besides the identifier the articles service looks up. *)

Module UsersService.

(** [UserRequestTo], with the fields the service and its tests use. *)
Record UserRequestTo := {
  login : string;
  password : string;
  firstname : string;
  lastname : string
}.

(** A row of the user table. *)
Record UserRecord := {
  id : Z;
  user_login : string;
  user_password : string;
  user_firstname : string;
  user_lastname : string
}.

Definition Table := list UserRecord.

(** An [async] method of this service: it runs against the user table. *)
Definition Task (A : Type) : Type := Table -> Table * Settled A.

Definition ret {A} (a : A) : Task A := fun t => (t, Fulfilled a).

Definition throw {A} (e : Exception) : Task A := fun t => (t, Rejected e).

Definition bind {A B} (m : Task A) (k : A -> Task B) : Task B :=
  fun t =>
    match m t with
    | (t1, Fulfilled a) => k a t1
    | (t1, Rejected e) => (t1, Rejected e)
    end.

Notation "x <~ m ;; k" := (bind m (fun x => k))
  (at level 61, m at next level, right associativity).

Definition try_catch {A} (body : Task A) (handler : Exception -> Task A)
  : Task A :=
  fun t =>
    match body t with
    | (t1, Fulfilled a) => (t1, Fulfilled a)
    | (t1, Rejected e) => handler e t1
    end.

Inductive Call :=
| FindUniqueLogin (l : string)
| FindUniqueId (i : Z)
| FindMany
| Create (data : UserRequestTo)
| Update (i : Z) (data : UserRequestTo)
| Delete (i : Z)
| GenSalt
| Hash (plain salt : string).

(** Modelled from the spec: which calls on the user table the database
    refuses, and which calls of the bcrypt library ([GenSalt], [Hash]) are
    rejected, with what error, in which state of the table. *)
Definition Faults := Call -> Table -> option Exception.

Definition quiet : Faults := fun _ _ => None.

Definition has_id (i : Z) (u : UserRecord) : bool := id u =? i.
Definition has_login (l : string) (u : UserRecord) : bool :=
  String.eqb (user_login u) l.

(** [{ ...user, password: hashed }]: the request after the assignment
    [user.password = ...]. *)
Definition with_password (hashed : string) (user : UserRequestTo)
  : UserRequestTo :=
  {| login := login user; password := hashed;
     firstname := firstname user; lastname := lastname user |}.

Definition record_of (i : Z) (data : UserRequestTo) : UserRecord :=
  {| id := i; user_login := login data; user_password := password data;
     user_firstname := firstname data; user_lastname := lastname data |}.

Section Service.

Variable fault : Faults.

(** [bcrypt.genSalt()] draws a salt at random: which one it delivers in
    which state of the table, when it is not rejected, is left open. *)
Variable genSalt : Table -> string.

(** What [bcrypt.hash(password, salt)] delivers when it is not rejected. *)
Variable hash : string -> string -> string.

(** Modelled from the spec: a lookup of the database client is refused,
    or answered from the table, which it leaves alone. *)
Definition query {A} (c : Call) (answer : Table -> A) : Task A :=
  fun t =>
    match fault c t with
    | Some e => (t, Rejected e)
    | None => (t, Fulfilled (answer t))
    end.

(** Modelled from the spec: an insert, update or delete is refused by the
    database, or fails on its own terms, or is done; a statement that
    fails writes nothing. *)
Definition command {A} (c : Call) (exec : Table -> string + Table * A)
  : Task A :=
  fun t =>
    match fault c t with
    | Some e => (t, Rejected e)
    | None =>
        match exec t with
        | inl d => (t, Rejected (PrismaError d))
        | inr (t1, a) => (t1, Fulfilled a)
        end
    end.

(** Modelled from the spec: point lookup of a user by login. *)
Definition user_findUnique_login (l : string) : Task (option UserRecord) :=
  query (FindUniqueLogin l) (find (has_login l)).

(** Modelled from the spec: point lookup of a user by id. *)
Definition user_findUnique_id (i : Z) : Task (option UserRecord) :=
  query (FindUniqueId i) (find (has_id i)).

(** Modelled from the spec: all rows of the user table. *)
Definition user_findMany : Task (list UserRecord) :=
  query FindMany (fun t => t).

(** Modelled from the spec: "Insert returning the created record with
    generated identifier"; the login is a unique key (the service looks it
    up with [findUnique]), so an insert of a login in use fails. *)
Definition user_create (data : UserRequestTo) : Task UserRecord :=
  command (Create data) (fun t =>
    if existsb (has_login (login data)) t
    then inl "Unique constraint failed on the fields: (login)"
    else
      let row := record_of (next_id (map id t)) data in
      inr (t ++ [row], row)).

(** Modelled from the spec: "Update-by-id returning the updated record";
    it writes every field of [data], fails when no row has the id, and
    fails when the new login is another user's. *)
Definition user_update (i : Z) (data : UserRequestTo) : Task UserRecord :=
  command (Update i data) (fun t =>
    match find (has_id i) t with
    | None => inl "Record to update not found."
    | Some _ =>
        if existsb (fun u => has_login (login data) u && negb (has_id i u)) t
        then inl "Unique constraint failed on the fields: (login)"
        else inr (map (fun u => if has_id i u then record_of i data else u) t,
                  record_of i data)
    end).

(** Modelled from the spec: "Delete-by-id"; deleting a row that is not
    there fails. *)
Definition user_delete (i : Z) : Task UserRecord :=
  command (Delete i) (fun t =>
    match find (has_id i) t with
    | None => inl "Record to delete does not exist."
    | Some u => inr (filter (fun x => negb (has_id i x)) t, u)
    end).

(** [await bcrypt.genSalt()]: rejected, or a salt; the table is not
    touched. *)
Definition bcrypt_genSalt : Task string :=
  fun t =>
    match fault GenSalt t with
    | Some e => (t, Rejected e)
    | None => (t, Fulfilled (genSalt t))
    end.

(** [await bcrypt.hash(plain, salt)]: rejected, or the hash; the table is
    not touched. *)
Definition bcrypt_hash (plain salt : string) : Task string :=
  fun t =>
    match fault (Hash plain salt) t with
    | Some e => (t, Rejected e)
    | None => (t, Fulfilled (hash plain salt))
    end.

Definition createUser (user : UserRequestTo) : Task UserRecord :=
  existing <~ user_findUnique_login (login user) ;;
  match existing with
  | Some _ =>
      throw (ForbiddenException "User with this login already exists")
  | None =>
      salt <~ bcrypt_genSalt ;;
      hashed <~ bcrypt_hash (password user) salt ;;
      user_create (with_password hashed user)
  end.

Definition getAll : Task (list UserRecord) := user_findMany.

Definition getUserById (i : Z) : Task UserRecord :=
  user <~ user_findUnique_id i ;;
  match user with
  | None => throw (NotFoundException "User not found")
  | Some u => ret u
  end.

Definition updateUser (i : Z) (user : UserRequestTo) : Task UserRecord :=
  existUser <~ user_findUnique_id i ;;
  match existUser with
  | None => throw (NotFoundException "User not found")
  | Some _ =>
      try_catch (user_update i user)
        (fun _ =>
           throw (InternalServerErrorException "Database error occurred"))
  end.

Definition deleteUser (i : Z) : Task unit :=
  existUser <~ user_findUnique_id i ;;
  match existUser with
  | None => throw (NotFoundException "User not found")
  | Some _ => _ <~ user_delete i ;; ret tt
  end.

End Service.

(** No two rows carry the same login. *)
Definition unique_logins (t : Table) : bool :=
  distinct_strings (map user_login t).

(** A database that refuses every deletion of a user. *)
Definition delete_fails : Faults :=
  fun c _ =>
    match c with
    | Delete _ => Some (PrismaError "Foreign key constraint failed")
    | _ => None
    end.

(** A database that refuses every update of a user. *)
Definition update_fails : Faults :=
  fun c _ =>
    match c with
    | Update _ _ => Some (PrismaError "connection lost")
    | _ => None
    end.

(** A salt generator and a hash used in the examples. *)
Definition salt_of_size (t : Table) : string :=
  if (length t =? 0)%nat then "salt0" else "salt1".
Definition tagged_hash (plain salt : string) : string :=
  String.append "hashed:" (String.append plain salt).

Definition ann : UserRequestTo :=
  {| login := "ann"; password := "secret";
     firstname := "Ann"; lastname := "Lee" |}.

Definition ann_row : UserRecord :=
  {| id := 1; user_login := "ann"; user_password := "hashed:secretsalt0";
     user_firstname := "Ann"; user_lastname := "Lee" |}.

End UsersService.

(** ** Running the building blocks *)

Section Runs.

Variable fault : Faults.

Lemma bind_fulfilled {A B} (m : Task A) (k : A -> Task B) db db' b :
  bind m k db = (db', Fulfilled b) ->
  exists a db1, m db = (db1, Fulfilled a) /\ k a db1 = (db', Fulfilled b).
Proof.
  unfold bind. destruct (m db) as [db1 [a | e]]; intros H.
  - exists a, db1. split; [reflexivity | exact H].
  - discriminate H.
Qed.

Lemma bind_rejected {A B} (m : Task A) (k : A -> Task B) db db' e :
  bind m k db = (db', Rejected e) ->
  m db = (db', Rejected e) \/
  exists a db1, m db = (db1, Fulfilled a) /\ k a db1 = (db', Rejected e).
Proof.
  unfold bind. destruct (m db) as [db1 [a | e1]]; intros H.
  - right. exists a, db1. split; [reflexivity | exact H].
  - left. inversion H. reflexivity.
Qed.

Lemma query_fulfilled {A} c (answer : Db -> A) db db' a :
  Prisma.query fault c answer db = (db', Fulfilled a) ->
  fault c db = None /\ db' = db /\ a = answer db.
Proof.
  unfold Prisma.query. destruct (fault c db); intros H; inversion H.
  repeat split.
Qed.

Lemma query_rejected {A} c (answer : Db -> A) db db' e :
  Prisma.query fault c answer db = (db', Rejected e) -> db' = db.
Proof.
  unfold Prisma.query. destruct (fault c db); intros H; inversion H.
  reflexivity.
Qed.

Lemma query_answered {A} c (answer : Db -> A) db :
  fault c db = None ->
  Prisma.query fault c answer db = (db, Fulfilled (answer db)).
Proof. unfold Prisma.query. intros ->. reflexivity. Qed.

Lemma command_fulfilled {A} c (exec : Db -> string + Db * A) db db' a :
  Prisma.command fault c exec db = (db', Fulfilled a) ->
  fault c db = None /\ exec db = inr (db', a).
Proof.
  unfold Prisma.command. destruct (fault c db); [discriminate |].
  destruct (exec db) as [d | [db1 a1]]; intros H; inversion H.
  split; reflexivity.
Qed.

Lemma command_rejected {A} c (exec : Db -> string + Db * A) db db' e :
  Prisma.command fault c exec db = (db', Rejected e) -> db' = db.
Proof.
  unfold Prisma.command. destruct (fault c db).
  - intros H; inversion H; reflexivity.
  - destruct (exec db) as [d | [db1 a1]]; intros H; inversion H; reflexivity.
Qed.

Lemma transaction_fulfilled {A} (body : Task A) db db' a :
  Prisma.transaction fault body db = (db', Fulfilled a) ->
  body db = (db', Fulfilled a).
Proof.
  unfold Prisma.transaction. destruct (fault TransactionBegin db).
  - discriminate.
  - destruct (body db) as [db1 [a1 | e1]]; [| discriminate].
    destruct (fault TransactionCommit db1); [discriminate |].
    intros H; exact H.
Qed.

Lemma transaction_rejected {A} (body : Task A) db db' e :
  Prisma.transaction fault body db = (db', Rejected e) -> db' = db.
Proof.
  unfold Prisma.transaction. destruct (fault TransactionBegin db).
  - intros H; inversion H; reflexivity.
  - destruct (body db) as [db1 [a1 | e1]].
    + destruct (fault TransactionCommit db1); intros H; inversion H.
      reflexivity.
    + intros H; inversion H; reflexivity.
Qed.

Lemma transaction_aborts {A} (body : Task A) db db1 e :
  body db = (db1, Rejected e) ->
  exists e', Prisma.transaction fault body db = (db, Rejected e').
Proof.
  intros Hbody. unfold Prisma.transaction.
  destruct (fault TransactionBegin db); [eexists; reflexivity |].
  rewrite Hbody. eexists; reflexivity.
Qed.

End Runs.

(** Splits a goal that is a conjunction, and nothing else. *)
Ltac conj := repeat match goal with |- _ /\ _ => split end.

(** ** Facts about lookups and counts *)

Lemma find_app_some {A} (p : A -> bool) l1 l2 a :
  find p l1 = Some a -> find p (l1 ++ l2) = Some a.
Proof.
  induction l1 as [| x l1 IH]; simpl; [discriminate |].
  destruct (p x); [intros H; exact H | exact IH].
Qed.

Lemma find_app_none {A} (p : A -> bool) l1 l2 :
  find p l1 = None -> find p (l1 ++ l2) = find p l2.
Proof.
  induction l1 as [| x l1 IH]; simpl; [reflexivity |].
  destruct (p x); [discriminate | exact IH].
Qed.

Lemma find_existsb {A} (p : A -> bool) l :
  existsb p l = match find p l with Some _ => true | None => false end.
Proof.
  induction l as [| x l IH]; simpl; [reflexivity |].
  destruct (p x); [reflexivity | exact IH].
Qed.

Lemma filter_filter_and {A} (p q : A -> bool) l :
  filter p (filter q l) = filter (fun x => q x && p x) l.
Proof.
  induction l as [| x l IH]; simpl; [reflexivity |].
  destruct (q x); simpl; [destruct (p x) |]; rewrite IH; reflexivity.
Qed.

Lemma count_name_app n l1 l2 :
  count_name n (l1 ++ l2) = (count_name n l1 + count_name n l2)%nat.
Proof. unfold count_name. rewrite filter_app, length_app. reflexivity. Qed.

Lemma find_none_count n l :
  find (has_name n) l = None -> count_name n l = 0%nat.
Proof.
  unfold count_name. induction l as [| x l IH]; simpl; [reflexivity |].
  destruct (has_name n x); [discriminate | exact IH].
Qed.

Lemma find_some_count n l s :
  find (has_name n) l = Some s -> (1 <= count_name n l)%nat.
Proof.
  unfold count_name. induction l as [| x l IH]; simpl; [discriminate |].
  destruct (has_name n x); simpl; [lia | exact IH].
Qed.

Lemma find_has_name n l s :
  find (has_name n) l = Some s -> sticker_name s = n.
Proof.
  intros H. apply find_some in H as [_ H].
  unfold has_name in H. apply String.eqb_eq in H. exact H.
Qed.

(** ** What a fulfilled [createArticle] leaves behind *)

Section CreateRuns.

Variable fault : Faults.

Lemma sticker_create_fulfilled name db db' s :
  Prisma.sticker_create fault name db = (db', Fulfilled s) ->
  s = {| sticker_id := next_id (map sticker_id (db_sticker db));
         sticker_name := name |} /\
  db' = set_sticker (db_sticker db ++ [s]) db.
Proof.
  intros H. apply command_fulfilled in H as [_ H].
  inversion H. split; reflexivity.
Qed.

Lemma resolveStickers_fulfilled names :
  forall acc db db' recs,
    resolveStickers fault names acc db = (db', Fulfilled recs) ->
    db_user db' = db_user db /\
    db_article db' = db_article db /\
    db_articleSticker db' = db_articleSticker db /\
    exists new added,
      recs = acc ++ new /\
      map sticker_name new = names /\
      db_sticker db' = db_sticker db ++ added /\
      (forall s, In s added -> In s new) /\
      Forall (fun s => find (has_name (sticker_name s)) (db_sticker db')
                       = Some s) new /\
      (forall n, count_name n (db_sticker db') =
                 if existsb (String.eqb n) names
                 then Nat.max 1 (count_name n (db_sticker db))
                 else count_name n (db_sticker db)).
Proof.
  induction names as [| x rest IH]; intros acc db db' recs Hrun.
  - inversion Hrun; subst. split; [| split; [| split]]; try reflexivity.
    exists [], []. rewrite !app_nil_r.
    split; [| split; [| split; [| split; [| split]]]]; try reflexivity.
    + intros s [].
    + constructor.
  - cbn [resolveStickers] in Hrun.
    apply bind_fulfilled in Hrun as (found & db1 & Hfind & Hrest).
    apply query_fulfilled in Hfind as (_ & -> & ->).
    destruct (find (has_name x) (db_sticker db)) as [s |] eqn:Hlook.
    + apply IH in Hrest
        as (Hu & Ha & Hl & new & added & -> & Hnames & Hgrow & Hin & Hall & Hcount).
      split; [exact Hu | split; [exact Ha | split; [exact Hl |]]].
      exists (s :: new), added. rewrite <- app_assoc.
      split; [reflexivity |].
      split; [| split; [exact Hgrow | split; [| split]]].
      * cbn [map]. rewrite (find_has_name _ _ _ Hlook), Hnames. reflexivity.
      * intros s' Hs'. right. apply Hin, Hs'.
      * constructor; [| exact Hall].
        rewrite Hgrow, (find_has_name _ _ _ Hlook).
        apply find_app_some. exact Hlook.
      * intros n. rewrite Hcount. cbn [existsb].
        destruct (String.eqb_spec n x) as [-> | Hne]; cbn [orb];
          [| reflexivity].
        apply find_some_count in Hlook.
        destruct (existsb (String.eqb x) rest); lia.
    + apply bind_fulfilled in Hrest as (s & db2 & Hnew & Hrest).
      apply sticker_create_fulfilled in Hnew as [Hs ->].
      apply IH in Hrest
        as (Hu & Ha & Hl & new & added & -> & Hnames & Hgrow & Hin & Hall & Hcount).
      cbn [set_sticker db_user db_article db_articleSticker db_sticker]
        in Hu, Ha, Hl, Hgrow, Hcount.
      assert (Hsn : sticker_name s = x) by (rewrite Hs; reflexivity).
      split; [exact Hu | split; [exact Ha | split; [exact Hl |]]].
      exists (s :: new), (s :: added). rewrite <- app_assoc in *.
      split; [reflexivity |].
      split; [| split; [exact Hgrow | split; [| split]]].
      * cbn [map]. rewrite Hsn, Hnames. reflexivity.
      * intros s' [<- | Hs']; [left; reflexivity | right; apply Hin, Hs'].
      * constructor; [| exact Hall].
        rewrite Hgrow, Hsn, (find_app_none _ _ _ Hlook). cbn [app find].
        unfold has_name at 1. rewrite Hsn, String.eqb_refl. reflexivity.
      * intros n. rewrite Hcount, count_name_app. cbn [existsb].
        replace (count_name n [s])
          with (if String.eqb x n then 1%nat else 0%nat)
          by (unfold count_name, has_name; cbn [filter]; rewrite Hsn;
              destruct (String.eqb x n); reflexivity).
        destruct (String.eqb_spec n x) as [-> | Hne]; cbn [orb].
        -- rewrite String.eqb_refl, (find_none_count _ _ Hlook).
           destruct (existsb (String.eqb x) rest); reflexivity.
        -- destruct (String.eqb_spec x n) as [E | _]; [congruence |].
           rewrite Nat.add_0_r. reflexivity.
Qed.

End CreateRuns.

Section CreateSpec.

Variable fault : Faults.

Lemma createArticle_tx_fulfilled article db db' a :
  createArticle_tx fault article db = (db', Fulfilled a) ->
  a = created_row article db /\
  db_user db' = db_user db /\
  db_article db' = db_article db ++ [a] /\
  exists recs added,
    map sticker_name recs = requested article /\
    db_sticker db' = db_sticker db ++ added /\
    (forall s, In s added -> In s recs) /\
    Forall (fun s => find (has_name (sticker_name s)) (db_sticker db')
                     = Some s) recs /\
    (forall n, count_name n (db_sticker db') =
               if existsb (String.eqb n) (requested article)
               then Nat.max 1 (count_name n (db_sticker db))
               else count_name n (db_sticker db)) /\
    db_articleSticker db' = db_articleSticker db ++ map (link_to a) recs.
Proof.
  unfold createArticle_tx. intros Hrun.
  apply bind_fulfilled in Hrun as (recs & db1 & Hres & Hrun).
  assert (Hres' : resolveStickers fault (requested article) [] db
                  = (db1, Fulfilled recs)).
  { unfold requested. destruct (stickers article); exact Hres. }
  clear Hres.
  apply resolveStickers_fulfilled in Hres'
    as (Hu & Ha & Hl & new & added & Hrecs & Hnames & Hgrow & Hin & Hall & Hcount).
  cbn [app] in Hrecs. subst new.
  apply bind_fulfilled in Hrun as (row & db2 & Hcreate & Hrun).
  apply command_fulfilled in Hcreate as [_ Hcreate].
  destruct (existsb (has_title (data_title (articleData_of article)))
              (db_article db1)); [discriminate |].
  inversion Hcreate as [[Hdb2 Hrow]]. clear Hcreate.
  cbn [articleData_of data_userId data_title data_content] in Hrow, Hdb2.
  rewrite Ha in Hrow, Hdb2.
  fold (created_row article db) in Hrow, Hdb2.
  apply bind_fulfilled in Hrun as ([] & db3 & Hlinks & Hrun).
  inversion Hrun; subst a db3. clear Hrun.
  assert (Hdb' : db_user db' = db_user db2 /\
                 db_article db' = db_article db2 /\
                 db_sticker db' = db_sticker db2 /\
                 db_articleSticker db' =
                 db_articleSticker db2 ++ map (link_to row) recs).
  { destruct recs as [| r recs].
    - inversion Hlinks; subst db'. cbn [map]. rewrite app_nil_r. auto.
    - cbn [length Nat.ltb Nat.leb] in Hlinks.
      apply bind_fulfilled in Hlinks as (n & db4 & Hmany & Hret).
      inversion Hret; subst db4.
      apply command_fulfilled in Hmany as [_ Hmany].
      inversion Hmany. cbn. auto. }
  destruct Hdb' as (Hu' & Ha' & Hs' & Hl').
  rewrite <- Hdb2 in Hu', Ha', Hs', Hl'.
  cbn [set_article db_user db_article db_sticker db_articleSticker]
    in Hu', Ha', Hs', Hl'.
  split; [symmetry; exact Hrow |].
  split; [congruence |].
  split; [rewrite Ha', Hrow; reflexivity |].
  exists recs, added.
  rewrite Hs'.
  split; [exact Hnames |].
  split; [exact Hgrow |].
  split; [exact Hin |].
  split; [exact Hall |].
  split; [exact Hcount |].
  rewrite Hl', Hl. reflexivity.
Qed.

Lemma createArticle_fulfilled article db db' a :
  createArticle fault article db = (db', Fulfilled a) ->
  find (has_title (title article)) (db_article db) = None /\
  createArticle_tx fault article db = (db', Fulfilled a).
Proof.
  unfold createArticle. intros Hrun.
  apply bind_fulfilled in Hrun as (user & db1 & Huser & Hrun).
  apply query_fulfilled in Huser as (_ & -> & _).
  destruct user; [| discriminate].
  apply bind_fulfilled in Hrun as (other & db1 & Htitle & Hrun).
  apply query_fulfilled in Htitle as (_ & -> & ->).
  destruct (find (has_title (title article)) (db_article db));
    [discriminate |].
  split; [reflexivity |].
  apply transaction_fulfilled in Hrun. exact Hrun.
Qed.

(** X6: A rejected [createArticle] has written nothing. *)
Lemma createArticle_rejected article db db' e :
  createArticle fault article db = (db', Rejected e) -> db' = db.
Proof.
  unfold createArticle. intros Hrun.
  apply bind_rejected in Hrun
    as [Hrun | (user & db1 & Huser & Hrun)].
  - apply query_rejected in Hrun. exact Hrun.
  - apply query_fulfilled in Huser as (_ & -> & _).
    destruct user; [| inversion Hrun; reflexivity].
    apply bind_rejected in Hrun
      as [Hrun | (other & db1 & Htitle & Hrun)].
    + apply query_rejected in Hrun. exact Hrun.
    + apply query_fulfilled in Htitle as (_ & -> & _).
      destruct other; [inversion Hrun; reflexivity |].
      apply transaction_rejected in Hrun. exact Hrun.
Qed.

End CreateSpec.

(** ** What a fulfilled [deleteArticle] leaves behind *)

Lemma length_filter_zero {A} (p : A -> bool) l :
  (length (filter p l) =? 0)%nat = negb (existsb p l).
Proof.
  induction l as [| x l IH]; cbn [filter existsb]; [reflexivity |].
  destruct (p x); [reflexivity | exact IH].
Qed.

Lemma other_connection_after_detach id sid links :
  filter (other_connection sid id)
         (filter (fun l => negb (of_article id l)) links)
  = filter (other_connection sid id) links.
Proof.
  rewrite filter_filter_and. apply filter_ext. intros l.
  unfold other_connection, of_article.
  destruct (articleId l =? id), (stickerId l =? sid); reflexivity.
Qed.

Lemma collected_of_links id all s links :
  collected id (filter (fun l => negb (of_article id l)) all)
            (map stickerId (filter (of_article id) links)) s
  = linked_to id (sticker_id s) links
    && negb (linked_elsewhere id (sticker_id s) all).
Proof.
  unfold collected, linked_to, linked_elsewhere.
  induction links as [| l links IH]; [reflexivity |].
  cbn [filter existsb].
  destruct (of_article id l); cbn [map existsb andb orb]; [| exact IH].
  rewrite IH. clear IH. unfold has_sticker_id. rewrite (Z.eqb_sym (sticker_id s)).
  destruct (stickerId l =? sticker_id s) eqn:Hs; cbn [andb orb];
    [| reflexivity].
  apply Z.eqb_eq in Hs. rewrite Hs.
  rewrite other_connection_after_detach, length_filter_zero.
  destruct (existsb (other_connection (sticker_id s) id) all);
    cbn [negb orb]; [rewrite andb_false_r |]; reflexivity.
Qed.

Lemma collected_kept id links s :
  collected id (filter (fun l => negb (of_article id l)) links)
            (map stickerId (filter (of_article id) links)) s
  = negb (kept id links s).
Proof.
  rewrite collected_of_links. unfold kept.
  rewrite negb_orb, negb_involutive. reflexivity.
Qed.

Section DeleteSpec.

Variable fault : Faults.

Lemma removeOrphans_fulfilled id stickerIds :
  forall db db',
    removeOrphans fault id stickerIds db = (db', Fulfilled tt) ->
    db_user db' = db_user db /\
    db_article db' = db_article db /\
    db_articleSticker db' = db_articleSticker db /\
    db_sticker db' =
    filter (fun s => negb (collected id (db_articleSticker db) stickerIds s))
           (db_sticker db).
Proof.
  induction stickerIds as [| sid rest IH]; intros db db' Hrun.
  - inversion Hrun; subst db'. conj; try reflexivity.
    unfold collected. cbn [existsb negb].
    induction (db_sticker db) as [| s tbl IHt]; [reflexivity |].
    cbn [filter]. rewrite <- IHt. reflexivity.
  - cbn [removeOrphans] in Hrun.
    apply bind_fulfilled in Hrun as (c & db1 & Hcount & Hrun).
    apply query_fulfilled in Hcount as (_ & -> & ->).
    apply bind_fulfilled in Hrun as ([] & db2 & Hdel & Hrun).
    apply IH in Hrun as (Hu & Ha & Hl & Hs). clear IH.
    destruct (length (filter (other_connection sid id) (db_articleSticker db))
              =? 0)%nat eqn:Horphan.
    + apply bind_fulfilled in Hdel as (gone & db3 & Hdel & Hret).
      inversion Hret; subst db3. clear Hret.
      apply command_fulfilled in Hdel as [_ Hdel].
      destruct (find (has_sticker_id sid) (db_sticker db)) as [s0 |];
        [| discriminate].
      inversion Hdel; subst db2. clear Hdel.
      cbn [set_sticker db_user db_article db_sticker db_articleSticker]
        in Hu, Ha, Hl, Hs.
      conj; try assumption.
      rewrite Hs, filter_filter_and. apply filter_ext. intros x.
      unfold collected. cbn [existsb]. rewrite Horphan, andb_true_r.
      rewrite negb_orb. reflexivity.
    + inversion Hdel; subst db2. clear Hdel.
      conj; try assumption.
      rewrite Hs. apply filter_ext. intros s.
      unfold collected. cbn [existsb]. rewrite Horphan, andb_false_r.
      reflexivity.
Qed.

Lemma deleteArticle_tx_fulfilled id db db' :
  deleteArticle_tx fault id db = (db', Fulfilled tt) ->
  db_user db' = db_user db /\
  db_article db' =
    filter (fun a => negb (has_article_id id a)) (db_article db) /\
  db_articleSticker db' =
    filter (fun l => negb (of_article id l)) (db_articleSticker db) /\
  db_sticker db' = filter (kept id (db_articleSticker db)) (db_sticker db).
Proof.
  unfold deleteArticle_tx. intros Hrun.
  apply bind_fulfilled in Hrun as (rows & db1 & Hrows & Hrun).
  apply query_fulfilled in Hrows as (_ & -> & ->).
  apply bind_fulfilled in Hrun as (n & db1 & Hdetach & Hrun).
  apply command_fulfilled in Hdetach as [_ Hdetach].
  inversion Hdetach; subst db1 n. clear Hdetach.
  apply bind_fulfilled in Hrun as ([] & db2 & Hloop & Hrun).
  apply removeOrphans_fulfilled in Hloop as (Hu & Ha & Hl & Hs).
  cbn [set_articleSticker db_user db_article db_sticker db_articleSticker]
    in Hu, Ha, Hl, Hs.
  apply bind_fulfilled in Hrun as (gone & db3 & Hdel & Hret).
  inversion Hret; subst db3. clear Hret.
  apply command_fulfilled in Hdel as [_ Hdel].
  destruct (find (has_article_id id) (db_article db2)); [| discriminate].
  inversion Hdel; subst db'. clear Hdel.
  cbn [set_article db_user db_article db_sticker db_articleSticker].
  conj; try congruence.
  rewrite Hs. apply filter_ext. intros s.
  rewrite collected_kept. apply negb_involutive.
Qed.

Lemma deleteArticle_fulfilled id db db' :
  deleteArticle fault id db = (db', Fulfilled tt) ->
  find (has_article_id id) (db_article db) <> None /\
  deleteArticle_tx fault id db = (db', Fulfilled tt).
Proof.
  unfold deleteArticle. intros Hrun.
  apply bind_fulfilled in Hrun as (existArticle & db1 & Hfind & Hrun).
  apply query_fulfilled in Hfind as (_ & -> & ->).
  destruct (find (has_article_id id) (db_article db)); [| discriminate].
  split; [discriminate |].
  apply transaction_fulfilled in Hrun. exact Hrun.
Qed.

(** X7: A rejected [deleteArticle] has deleted nothing. *)
Lemma deleteArticle_rejected id db db' e :
  deleteArticle fault id db = (db', Rejected e) -> db' = db.
Proof.
  unfold deleteArticle. intros Hrun.
  apply bind_rejected in Hrun
    as [Hrun | (existArticle & db1 & Hfind & Hrun)].
  - apply query_rejected in Hrun. exact Hrun.
  - apply query_fulfilled in Hfind as (_ & -> & _).
    destruct existArticle; [| inversion Hrun; reflexivity].
    apply transaction_rejected in Hrun. exact Hrun.
Qed.

End DeleteSpec.

Lemma referenced_split id sid links :
  referenced sid links
  = linked_to id sid links || linked_elsewhere id sid links.
Proof.
  unfold referenced, linked_to, linked_elsewhere.
  induction links as [| l links IH]; [reflexivity |].
  cbn [existsb]. rewrite IH. unfold other_connection, of_article.
  destruct (articleId l =? id), (stickerId l =? sid); cbn [andb orb negb];
    try reflexivity.
  rewrite orb_true_r. reflexivity.
Qed.

Lemma referenced_detached id sid links :
  referenced sid (filter (fun l => negb (of_article id l)) links)
  = linked_elsewhere id sid links.
Proof.
  unfold referenced, linked_elsewhere.
  induction links as [| l links IH]; [reflexivity |].
  cbn [filter existsb]. unfold other_connection at 1, of_article at 1.
  destruct (articleId l =? id); cbn [negb existsb];
    rewrite IH; [rewrite andb_false_r |]; rewrite ?andb_true_r; reflexivity.
Qed.

(** ** A database that refuses nothing *)

Lemma query_no_fault {A} c (answer : Db -> A) db :
  Prisma.query no_fault c answer db = (db, Fulfilled (answer db)).
Proof. reflexivity. Qed.

Lemma command_no_fault {A} c (exec : Db -> string + Db * A) db :
  Prisma.command no_fault c exec db =
  match exec db with
  | inl d => (db, Rejected (PrismaError d))
  | inr (db1, a) => (db1, Fulfilled a)
  end.
Proof. reflexivity. Qed.

Lemma transaction_no_fault {A} (body : Task A) db db' a :
  body db = (db', Fulfilled a) ->
  Prisma.transaction no_fault body db = (db', Fulfilled a).
Proof. unfold Prisma.transaction, no_fault. intros ->. reflexivity. Qed.

Lemma resolveStickers_runs names :
  forall acc db,
  exists db' recs,
    resolveStickers no_fault names acc db = (db', Fulfilled recs).
Proof.
  induction names as [| x rest IH]; intros acc db.
  - exists db, acc. reflexivity.
  - cbn [resolveStickers]. unfold bind at 1.
    unfold Prisma.sticker_findFirst. rewrite query_no_fault.
    destruct (find (has_name x) (db_sticker db)) as [s |].
    + apply IH.
    + unfold bind at 1. unfold Prisma.sticker_create.
      rewrite command_no_fault. apply IH.
Qed.

(** With a database that refuses nothing, an existing owner and a free
    title, [createArticle] is fulfilled. *)
Lemma createArticle_runs article db u :
  find (fun u => user_id u =? userId article) (db_user db) = Some u ->
  find (has_title (title article)) (db_article db) = None ->
  exists db' a, createArticle no_fault article db = (db', Fulfilled a).
Proof.
  intros Huser Htitle. unfold createArticle.
  unfold bind at 1. unfold Prisma.user_findUnique.
  rewrite query_no_fault, Huser.
  unfold bind at 1. unfold Prisma.article_findUnique_title.
  rewrite query_no_fault, Htitle.
  destruct (resolveStickers_runs (requested article) [] db)
    as (db1 & recs & Hres).
  pose proof (resolveStickers_fulfilled _ _ _ _ _ _ Hres) as (_ & Ha & _).
  assert (Hbody : exists db' a,
             createArticle_tx no_fault article db = (db', Fulfilled a)).
  { unfold createArticle_tx. unfold bind at 1.
    replace (match stickers article with
             | Some names => resolveStickers no_fault names []
             | None => ret []
             end) with (resolveStickers no_fault (requested article) [])
      by (unfold requested; destruct (stickers article); reflexivity).
    rewrite Hres. unfold bind at 1. unfold Prisma.article_create.
    rewrite command_no_fault. cbn [articleData_of data_title].
    rewrite Ha, find_existsb, Htitle.
    destruct recs as [| r recs]; eexists; eexists; reflexivity. }
  destruct Hbody as (db' & a & Hbody).
  exists db', a. apply transaction_no_fault. exact Hbody.
Qed.

Lemma removeOrphans_runs id stickerIds :
  forall db,
    distinct stickerIds = true ->
    forallb (fun sid => existsb (has_sticker_id sid) (db_sticker db))
            stickerIds = true ->
    exists db',
      removeOrphans no_fault id stickerIds db = (db', Fulfilled tt) /\
      db_article db' = db_article db.
Proof.
  induction stickerIds as [| sid rest IH]; intros db Hdistinct Hpresent.
  - exists db. split; reflexivity.
  - cbn [distinct forallb] in Hdistinct, Hpresent.
    apply andb_true_iff in Hdistinct as [Hfresh Hdistinct].
    apply andb_true_iff in Hpresent as [Hsid Hpresent].
    cbn [removeOrphans]. unfold bind at 1.
    unfold Prisma.articleSticker_count. rewrite query_no_fault.
    destruct (length (filter (other_connection sid id)
                        (db_articleSticker db)) =? 0)%nat.
    + unfold bind at 1. unfold bind at 1. unfold Prisma.sticker_delete.
      rewrite command_no_fault. rewrite find_existsb in Hsid.
      destruct (find (has_sticker_id sid) (db_sticker db)) as [s |];
        [| discriminate].
      cbn [ret].
      destruct (IH (set_sticker
                      (filter (fun x => negb (has_sticker_id sid x))
                              (db_sticker db)) db) Hdistinct)
        as (db' & Hrun & Ha).
      { cbn [set_sticker db_sticker].
        apply forallb_forall. intros sid' Hin.
        rewrite forallb_forall in Hpresent. specialize (Hpresent _ Hin).
        apply existsb_exists in Hpresent as (s' & Hs' & Hid).
        apply existsb_exists. exists s'. split; [| exact Hid].
        apply filter_In. split; [exact Hs' |].
        unfold has_sticker_id in *. apply Z.eqb_eq in Hid.
        apply negb_true_iff, Z.eqb_neq. intros E.
        apply negb_true_iff in Hfresh.
        assert (Hex : existsb (Z.eqb sid) rest = true)
          by (apply existsb_exists; exists sid'; split;
              [exact Hin | apply Z.eqb_eq; congruence]).
        congruence. }
      exists db'. split; [exact Hrun | exact Ha].
    + unfold bind at 1. cbn [ret]. apply IH; assumption.
Qed.

(** X8: With a database that refuses nothing and sound links, [deleteArticle]
    of an existing article is fulfilled. *)
Lemma deleteArticle_runs id db a :
  find (has_article_id id) (db_article db) = Some a ->
  links_sound id db = true ->
  exists db', deleteArticle no_fault id db = (db', Fulfilled tt).
Proof.
  intros Hfind Hsound. unfold links_sound in Hsound.
  apply andb_true_iff in Hsound as [Hdistinct Hpresent].
  unfold deleteArticle. unfold bind at 1.
  unfold Prisma.article_findUnique_id. rewrite query_no_fault, Hfind.
  destruct (removeOrphans_runs id
              (map stickerId (filter (of_article id) (db_articleSticker db)))
              (set_articleSticker
                 (filter (fun l => negb (of_article id l))
                         (db_articleSticker db)) db)
              Hdistinct)
    as (db2 & Hloop & Ha).
  { rewrite forallb_forall. intros sid Hin.
    apply in_map_iff in Hin as (l & <- & Hl).
    rewrite forallb_forall in Hpresent. apply Hpresent, Hl. }
  cbn [set_articleSticker db_article] in Ha.
  eexists. apply transaction_no_fault.
  unfold deleteArticle_tx. unfold bind at 1.
  unfold Prisma.articleSticker_findMany. rewrite query_no_fault.
  unfold bind at 1. unfold Prisma.articleSticker_deleteMany.
  rewrite command_no_fault. unfold bind at 1. rewrite Hloop.
  unfold bind at 1. unfold Prisma.article_delete.
  rewrite command_no_fault, Ha, Hfind. reflexivity.
Qed.

(** ** Creation: owner and title checks *)

(** C5: when the request's owner id matches no user row (and the lookup is
    answered), [createArticle] is rejected with an [UnauthorizedException]
    and the store it leaves is the store it found: no table has changed. *)
Theorem createArticle_unknown_owner_unauthorized fault article db :
  fault (UserFindUnique (userId article)) db = None ->
  find (fun u => user_id u =? userId article) (db_user db) = None ->
  createArticle fault article db
  = (db, Rejected (UnauthorizedException "User with userId not found!")).
Proof.
  intros Hanswered Habsent. unfold createArticle, bind.
  unfold Prisma.user_findUnique.
  rewrite (query_answered _ _ _ _ Hanswered), Habsent. reflexivity.
Qed.

Lemma createArticle_unknown_owner_unauthorized_witness :
  createArticle composite_key (post 7 "T" (Some ["a"; "b"])) x_and_y
  = (x_and_y, Rejected (UnauthorizedException "User with userId not found!")).
Proof.
  apply createArticle_unknown_owner_unauthorized; reflexivity.
Defined.




(** The owner check comes before the title check: a second call with the
    same title whose owner does not exist is rejected with the owner
    error, and writes nothing either. *)
Example createArticle_repeated_title_unknown_owner :
  createArticle no_fault (post 1 "T" None) two_users
  = (one_article,
     Fulfilled {| article_id := 1; article_userId := 1;
                  article_title := "T"; article_content := "Content" |})
  /\ title (post 7 "T" None) = title (post 1 "T" None)
  /\ createArticle no_fault (post 7 "T" None) one_article
     = (one_article,
        Rejected (UnauthorizedException "User with userId not found!")).
Proof. repeat split. Qed.

(** ** Creation: stickers and links *)

(** X18: What a fulfilled [createArticle] with a sticker list does in general:
    for every listed name it leaves one sticker row if there was none and
    as many as there were otherwise (a name listed twice is inserted once;
    other names keep their rows); every entry of the list resolves to the
    first sticker row of its name; and the join table gains one link row
    per entry of the list, in order -- so a name listed twice puts two link
    rows to the same sticker on the article. *)
Lemma createArticle_links_every_listed_name
  fault article names db db' a :
  stickers article = Some names ->
  createArticle fault article db = (db', Fulfilled a) ->
  (forall n, count_name n (db_sticker db') =
             if existsb (String.eqb n) names
             then Nat.max 1 (count_name n (db_sticker db))
             else count_name n (db_sticker db)) /\
  exists recs,
    map sticker_name recs = names /\
    Forall (fun s => find (has_name (sticker_name s)) (db_sticker db')
                     = Some s) recs /\
    db_articleSticker db' = db_articleSticker db ++ map (link_to a) recs.
Proof.
  intros Hnames Hrun.
  apply createArticle_fulfilled in Hrun as [_ Hrun].
  apply createArticle_tx_fulfilled in Hrun
    as (_ & _ & _ & recs & added & Hmap & _ & _ & Hall & Hcount & Hlinks).
  unfold requested in Hmap, Hcount. rewrite Hnames in Hmap, Hcount.
  split; [exact Hcount |].
  exists recs. split; [exact Hmap | split; [exact Hall | exact Hlinks]].
Qed.

Example createArticle_links_every_listed_name_at_aab :
  (forall n, count_name n (db_sticker tagged_twice) =
             if existsb (String.eqb n) ["a"; "a"; "b"]
             then Nat.max 1 (count_name n (db_sticker two_users))
             else count_name n (db_sticker two_users)) /\
  exists recs,
    map sticker_name recs = ["a"; "a"; "b"] /\
    Forall (fun s => find (has_name (sticker_name s)) (db_sticker tagged_twice)
                     = Some s) recs /\
    db_articleSticker tagged_twice
    = db_articleSticker two_users
      ++ map (link_to {| article_id := 1; article_userId := 1;
                         article_title := "T";
                         article_content := "Content" |}) recs.
Proof.
  apply (createArticle_links_every_listed_name
           no_fault (post 1 "T" (Some ["a"; "a"; "b"]))
           ["a"; "a"; "b"] two_users tagged_twice);
    reflexivity.
Defined.

(** C1, for the list "a", "a", "b": the two sticker rows "a" and "b" are
    created once each, but the article is not linked to "a" exactly once.
    A database that accepts repeated link rows ends with two rows joining
    the article to sticker "a"; a database whose join table is keyed by the
    pair refuses the bulk insert, and the call leaves no article, no
    sticker and no link at all. *)
Theorem createArticle_repeated_name_links_twice :
  createArticle no_fault (post 1 "T" (Some ["a"; "a"; "b"])) two_users
  = (tagged_twice,
     Fulfilled {| article_id := 1; article_userId := 1;
                  article_title := "T"; article_content := "Content" |})
  /\ find (has_name "a") (db_sticker tagged_twice)
     = Some {| sticker_id := 1; sticker_name := "a" |}
  /\ count_link 1 1 (db_articleSticker tagged_twice) = 2%nat
  /\ createArticle composite_key (post 1 "T" (Some ["a"; "a"; "b"])) two_users
     = (two_users,
        Rejected (PrismaError
          "Unique constraint failed on the fields: (articleId,stickerId)")).
Proof. repeat split. Qed.

(** ** Creation: atomicity *)

(** C8: when the callback [createArticle] hands to the transaction is
    rejected at any of its steps, leaving whatever store [db1] it had
    reached, [createArticle] is rejected and the store it leaves is the
    one it found. *)
Theorem createArticle_transaction_rolls_back fault article db db1 e :
  createArticle_tx fault article db = (db1, Rejected e) ->
  exists e', createArticle fault article db = (db, Rejected e').
Proof.
  intros Hbody. unfold createArticle, bind.
  unfold Prisma.user_findUnique, Prisma.article_findUnique_title.
  unfold Prisma.query.
  destruct (fault (UserFindUnique (userId article)) db);
    [eexists; reflexivity |].
  destruct (find (fun u => user_id u =? userId article) (db_user db));
    [| eexists; reflexivity].
  destruct (fault (ArticleFindUniqueTitle (title article)) db);
    [eexists; reflexivity |].
  destruct (find (has_title (title article)) (db_article db));
    [eexists; reflexivity |].
  apply (transaction_aborts fault _ _ _ _ Hbody).
Qed.

Lemma createArticle_transaction_rolls_back_witness :
  exists e',
    createArticle createMany_fails (post 1 "T" (Some ["red"; "blue"]))
      two_users
    = (two_users, Rejected e').
Proof.
  apply (createArticle_transaction_rolls_back
           createMany_fails (post 1 "T" (Some ["red"; "blue"]))
           two_users half_done (PrismaError "simulated failure")).
  reflexivity.
Defined.

(** The same run, spelled out: the error of the refused insert comes out as
    it is, and neither the article nor the stickers are left. *)
Example createArticle_link_failure :
  createArticle createMany_fails (post 1 "T" (Some ["red"; "blue"])) two_users
  = (two_users, Rejected (PrismaError "simulated failure")).
Proof. reflexivity. Qed.

(** ** Update *)

(** C2, amended: whatever its outcome, [updateArticle] leaves the user,
    sticker and link tables as they were.  When fulfilled, it has
    overwritten [userId], [title] and [content] of the row with the given
    id by the values of the request (the owner becomes the request's
    [userId]) and returns that row; every other article row is unchanged.
    When rejected, the article table is unchanged too. *)
Theorem updateArticle_writes_every_request_field
  fault id article db db' r :
  updateArticle fault id article db = (db', r) ->
  db_user db' = db_user db /\
  db_sticker db' = db_sticker db /\
  db_articleSticker db' = db_articleSticker db /\
  match r with
  | Fulfilled a =>
      a = updated_row id article /\
      db_article db' = map (overwrite id article) (db_article db)
  | Rejected _ => db_article db' = db_article db
  end.
Proof.
  unfold updateArticle, bind, try_catch, throw.
  unfold Prisma.article_findUnique_id, Prisma.query.
  unfold Prisma.article_update, Prisma.command. cbv beta.
  destruct (fault (ArticleFindUniqueId id) db);
    [intros H; inversion H; auto |].
  destruct (find (has_article_id id) (db_article db)) eqn:Hfind; cbv beta;
    [| intros H; inversion H; auto].
  rewrite Hfind.
  destruct (fault (ArticleUpdate id article) db);
    [intros H; inversion H; auto |].
  destruct (existsb _ (db_article db));
    intros H; inversion H; cbn; auto.
Qed.

Lemma updateArticle_writes_every_request_field_witness :
  db_user (set_article
             [{| article_id := 2; article_userId := 2;
                 article_title := "Z"; article_content := "Content" |}]
             only_y)
  = db_user only_y /\
  db_sticker (set_article
                [{| article_id := 2; article_userId := 2;
                    article_title := "Z"; article_content := "Content" |}]
                only_y)
  = db_sticker only_y /\
  db_articleSticker
    (set_article
       [{| article_id := 2; article_userId := 2;
           article_title := "Z"; article_content := "Content" |}]
       only_y)
  = db_articleSticker only_y /\
  {| article_id := 2; article_userId := 2;
     article_title := "Z"; article_content := "Content" |}
  = updated_row 2 (post 2 "Z" None) /\
  [{| article_id := 2; article_userId := 2;
      article_title := "Z"; article_content := "Content" |}]
  = map (overwrite 2 (post 2 "Z" None)) (db_article only_y).
Proof.
  apply (updateArticle_writes_every_request_field
           no_fault 2 (post 2 "Z" None) only_y
           (set_article
              [{| article_id := 2; article_userId := 2;
                  article_title := "Z"; article_content := "Content" |}]
              only_y)
           (Fulfilled {| article_id := 2; article_userId := 2;
                         article_title := "Z";
                         article_content := "Content" |})).
  reflexivity.
Defined.

(** C2 as stated fails: article 2 belongs to user 1, and an update whose
    request names user 2 hands it over to user 2. *)
Lemma updateArticle_reassigns_owner :
  map article_userId (db_article only_y) = [1]
  /\ updateArticle no_fault 2 (post 2 "Y" None) only_y
     = (set_article
          [{| article_id := 2; article_userId := 2;
              article_title := "Y"; article_content := "Content" |}]
          only_y,
        Fulfilled {| article_id := 2; article_userId := 2;
                     article_title := "Y"; article_content := "Content" |}).
Proof. split; reflexivity. Qed.

(** For an id no article row has, [updateArticle] writes nothing and is
    rejected -- with an [UnauthorizedException]. *)
Lemma updateArticle_absent fault id article db :
  fault (ArticleFindUniqueId id) db = None ->
  find (has_article_id id) (db_article db) = None ->
  updateArticle fault id article db
  = (db, Rejected (UnauthorizedException "Article with id not found!")).
Proof.
  intros Hanswered Habsent. unfold updateArticle, bind.
  unfold Prisma.article_findUnique_id.
  rewrite (query_answered _ _ _ _ Hanswered), Habsent. reflexivity.
Qed.

(** C3, at id 999 which no article has: the call writes nothing, but the
    rejection is an [UnauthorizedException] (status 401), where
    [deleteArticle] answers the same situation with a
    [NotFoundException] (status 404). *)
Theorem updateArticle_missing_is_unauthorized :
  updateArticle no_fault 999 (post 1 "T" None) x_and_y
  = (x_and_y, Rejected (UnauthorizedException "Article with id not found!"))
  /\ getStatus (UnauthorizedException "Article with id not found!") = 401
  /\ deleteArticle no_fault 999 x_and_y
     = (x_and_y, Rejected (NotFoundException "Article not found")).
Proof. repeat split. Qed.

(** C9: when the article exists and the update statement is rejected by
    the database with any error [e], [updateArticle] is rejected with the
    [InternalServerErrorException] "Database error occurred" -- the same
    whatever [e] is -- which is no [NotFoundException] and not the
    rejection [updateArticle] gives for a missing article; nothing is
    written. *)
Theorem updateArticle_wraps_database_error fault id article db a db1 e :
  fault (ArticleFindUniqueId id) db = None ->
  find (has_article_id id) (db_article db) = Some a ->
  Prisma.article_update fault id article db = (db1, Rejected e) ->
  updateArticle fault id article db
  = (db, Rejected (InternalServerErrorException "Database error occurred"))
  /\ (forall m, InternalServerErrorException "Database error occurred"
                <> NotFoundException m)
  /\ (forall m, InternalServerErrorException "Database error occurred"
                <> UnauthorizedException m)
  /\ getStatus (InternalServerErrorException "Database error occurred") = 500.
Proof.
  intros Hanswered Hfound Hupdate.
  pose proof (command_rejected _ _ _ _ _ _ Hupdate) as ->.
  split; [| split; [| split]]; try discriminate; try reflexivity.
  unfold updateArticle, bind, try_catch.
  unfold Prisma.article_findUnique_id.
  rewrite (query_answered _ _ _ _ Hanswered), Hfound, Hupdate. reflexivity.
Qed.

Lemma updateArticle_wraps_database_error_witness :
  updateArticle update_fails 2 (post 1 "Z" None) only_y
  = (only_y, Rejected (InternalServerErrorException "Database error occurred"))
  /\ (forall m, InternalServerErrorException "Database error occurred"
                <> NotFoundException m)
  /\ (forall m, InternalServerErrorException "Database error occurred"
                <> UnauthorizedException m)
  /\ getStatus (InternalServerErrorException "Database error occurred") = 500.
Proof.
  apply (updateArticle_wraps_database_error
           update_fails 2 (post 1 "Z" None) only_y
           {| article_id := 2; article_userId := 1;
              article_title := "Y"; article_content := "Content" |}
           only_y (PrismaError "connection lost"));
    reflexivity.
Defined.

(** A title taken by another article is one such failure. *)
Example updateArticle_title_taken :
  updateArticle no_fault 2 (post 1 "X" None) x_and_y
  = (x_and_y,
     Rejected (InternalServerErrorException "Database error occurred")).
Proof. reflexivity. Qed.

(** ** Deletion *)

(** X27: a fulfilled [deleteArticle] keeps exactly the link rows of the
    other articles.  A sticker the article was linked to, and which no
    link row references afterwards, is gone from the sticker table; a
    sticker another article is linked to is still in the table, and still
    referenced. *)
Theorem deleteArticle_collects_orphans fault id db db' :
  deleteArticle fault id db = (db', Fulfilled tt) ->
  db_articleSticker db'
  = filter (fun l => negb (of_article id l)) (db_articleSticker db) /\
  forall s, In s (db_sticker db) ->
    (linked_to id (sticker_id s) (db_articleSticker db) = true ->
     referenced (sticker_id s) (db_articleSticker db') = false ->
     existsb (has_sticker_id (sticker_id s)) (db_sticker db') = false) /\
    (linked_elsewhere id (sticker_id s) (db_articleSticker db) = true ->
     In s (db_sticker db') /\
     referenced (sticker_id s) (db_articleSticker db') = true).
Proof.
  intros Hrun. apply deleteArticle_fulfilled in Hrun as [_ Hrun].
  apply deleteArticle_tx_fulfilled in Hrun as (_ & _ & Hlinks & Hstickers).
  split; [exact Hlinks |].
  intros s Hs. rewrite Hlinks, Hstickers, referenced_detached. split.
  - intros Hmine Hnone.
    destruct (existsb (has_sticker_id (sticker_id s))
                (filter (kept id (db_articleSticker db)) (db_sticker db)))
      eqn:Hleft; [| reflexivity].
    apply existsb_exists in Hleft as (s' & Hin & Hid).
    apply filter_In in Hin as [_ Hkept].
    unfold has_sticker_id in Hid. apply Z.eqb_eq in Hid.
    unfold kept in Hkept. rewrite Hid, Hmine, Hnone in Hkept.
    discriminate.
  - intros Hshared. split; [| exact Hshared].
    apply filter_In. split; [exact Hs |].
    unfold kept. rewrite Hshared. apply orb_true_r.
Qed.

Lemma deleteArticle_collects_orphans_witness :
  db_articleSticker only_y
  = filter (fun l => negb (of_article 1 l)) (db_articleSticker x_and_y) /\
  forall s, In s (db_sticker x_and_y) ->
    (linked_to 1 (sticker_id s) (db_articleSticker x_and_y) = true ->
     referenced (sticker_id s) (db_articleSticker only_y) = false ->
     existsb (has_sticker_id (sticker_id s)) (db_sticker only_y) = false) /\
    (linked_elsewhere 1 (sticker_id s) (db_articleSticker x_and_y) = true ->
     In s (db_sticker only_y) /\
     referenced (sticker_id s) (db_articleSticker only_y) = true).
Proof.
  apply (deleteArticle_collects_orphans no_fault 1 x_and_y only_y).
  reflexivity.
Defined.

(** The scenario of the sticker "only-x" and the sticker "shared". *)
Example deleteArticle_only_x_and_shared :
  deleteArticle no_fault 1 x_and_y = (only_y, Fulfilled tt)
  /\ find (has_name "only-x") (db_sticker only_y) = None
  /\ find (has_name "shared") (db_sticker only_y)
     = Some {| sticker_id := 2; sticker_name := "shared" |}
  /\ count_link 2 2 (db_articleSticker only_y) = 1%nat.
Proof. repeat split. Qed.

(** An article whose links were entered twice cannot be deleted: the loop
    deletes the orphaned sticker at the first of the two ids and fails at
    the second. *)
Example deleteArticle_repeated_link :
  deleteArticle no_fault 1 tagged_twice
  = (tagged_twice, Rejected (PrismaError "Record to delete does not exist.")).
Proof. reflexivity. Qed.

(** Whatever the database refuses or accepts, that deletion is never
    fulfilled. *)
Lemma deleteArticle_repeated_link_never_fulfilled fault db' :
  deleteArticle fault 1 tagged_twice <> (db', Fulfilled tt).
Proof.
  intros Hrun. apply deleteArticle_fulfilled in Hrun as [_ Hrun].
  unfold deleteArticle_tx in Hrun.
  apply bind_fulfilled in Hrun as (rows & db1 & Hrows & Hrun).
  apply query_fulfilled in Hrows as (_ & -> & ->).
  apply bind_fulfilled in Hrun as (n & db1 & Hdetach & Hrun).
  apply command_fulfilled in Hdetach as [_ Hdetach].
  inversion Hdetach; subst db1 n. clear Hdetach.
  apply bind_fulfilled in Hrun as ([] & db2 & Hloop & _).
  cbn in Hloop.
  apply bind_fulfilled in Hloop as (c1 & db3 & Hcount & Hloop).
  apply query_fulfilled in Hcount as (_ & -> & ->).
  cbn in Hloop.
  apply bind_fulfilled in Hloop as ([] & db3 & Hfirst & Hloop).
  apply bind_fulfilled in Hfirst as (gone & db4 & Hdel & Hret).
  inversion Hret; subst db4. clear Hret.
  apply command_fulfilled in Hdel as [_ Hdel].
  inversion Hdel; subst db3 gone. clear Hdel.
  apply bind_fulfilled in Hloop as (c2 & db3 & Hcount & Hloop).
  apply query_fulfilled in Hcount as (_ & -> & ->).
  cbn in Hloop.
  apply bind_fulfilled in Hloop as ([] & db3 & Hsecond & _).
  apply bind_fulfilled in Hsecond as (gone & db4 & Hdel & _).
  apply command_fulfilled in Hdel as [_ Hdel].
  discriminate Hdel.
Qed.


Lemma find_after_delete id rows :
  find (has_article_id id) (filter (fun a => negb (has_article_id id a)) rows)
  = None.
Proof.
  induction rows as [| a rows IH]; [reflexivity |].
  cbn [filter]. destruct (has_article_id id a) eqn:Hid; cbn [negb];
    [exact IH |].
  cbn [find]. rewrite Hid. exact IH.
Qed.

(** After a fulfilled [deleteArticle] the article has no link row and no
    row of its own, and fetching it is rejected -- with an
    [UnauthorizedException]. *)
Lemma deleteArticle_then_getArticleById fault id db db' :
  deleteArticle fault id db = (db', Fulfilled tt) ->
  fault (ArticleFindUniqueId id) db' = None ->
  filter (of_article id) (db_articleSticker db') = [] /\
  find (has_article_id id) (db_article db') = None /\
  getArticleById fault id db'
  = (db', Rejected (UnauthorizedException "Article with id not found!")).
Proof.
  intros Hrun Hanswered. apply deleteArticle_fulfilled in Hrun as [_ Hrun].
  apply deleteArticle_tx_fulfilled in Hrun as (_ & Harticles & Hlinks & _).
  assert (Hgone : find (has_article_id id) (db_article db') = None)
    by (rewrite Harticles; apply find_after_delete).
  split; [| split; [exact Hgone |]].
  - rewrite Hlinks, filter_filter_and. clear Hlinks.
    induction (db_articleSticker db) as [| l links IH]; [reflexivity |].
    cbn [filter]. destruct (of_article id l); cbn [negb andb]; exact IH.
  - unfold getArticleById, bind. unfold Prisma.article_findUnique_id.
    rewrite (query_answered _ _ _ _ Hanswered), Hgone. reflexivity.
Qed.

(** C7, for article 1 of [x_and_y]: the deletion removes the article row
    and its link rows in one transaction, but fetching the article
    afterwards is rejected with an [UnauthorizedException] (status 401),
    not with a [NotFoundException] (status 404). *)
Theorem deleteArticle_then_get_is_unauthorized :
  deleteArticle no_fault 1 x_and_y = (only_y, Fulfilled tt)
  /\ filter (of_article 1) (db_articleSticker only_y) = []
  /\ find (has_article_id 1) (db_article only_y) = None
  /\ getArticleById no_fault 1 only_y
     = (only_y, Rejected (UnauthorizedException "Article with id not found!"))
  /\ getStatus (UnauthorizedException "Article with id not found!") = 401
  /\ getStatus (NotFoundException "Article not found") = 404.
Proof. repeat split. Qed.

(** ** No sticker without a link *)

Lemma referenced_app sid l1 l2 :
  referenced sid (l1 ++ l2) = referenced sid l1 || referenced sid l2.
Proof. unfold referenced. apply existsb_app. Qed.

(** C10: from a store in which every sticker row is referenced by a link
    row, every fulfilled [createArticle] and every fulfilled
    [deleteArticle] leads to a store in which every sticker row is
    referenced by a link row. *)
Theorem no_orphan_preserved fault db :
  no_orphan db = true ->
  (forall article db' a,
      createArticle fault article db = (db', Fulfilled a) ->
      no_orphan db' = true) /\
  (forall id db',
      deleteArticle fault id db = (db', Fulfilled tt) ->
      no_orphan db' = true).
Proof.
  unfold no_orphan. intros Hinv. rewrite forallb_forall in Hinv. split.
  - intros article db' a Hrun.
    apply createArticle_fulfilled in Hrun as [_ Hrun].
    apply createArticle_tx_fulfilled in Hrun
      as (_ & _ & _ & recs & added & _ & Hgrow & Hin & _ & _ & Hlinks).
    apply forallb_forall. intros s Hs.
    rewrite Hlinks, referenced_app. rewrite Hgrow in Hs.
    apply in_app_or in Hs as [Hold | Hnew].
    + rewrite (Hinv _ Hold). reflexivity.
    + apply orb_true_iff. right. unfold referenced.
      apply existsb_exists. exists (link_to a s). split.
      * apply in_map, Hin, Hnew.
      * apply Z.eqb_refl.
  - intros id db' Hrun.
    apply deleteArticle_fulfilled in Hrun as [_ Hrun].
    apply deleteArticle_tx_fulfilled in Hrun as (_ & _ & Hlinks & Hstickers).
    apply forallb_forall. intros s Hs.
    rewrite Hstickers in Hs. apply filter_In in Hs as [Hs Hkept].
    rewrite Hlinks, referenced_detached.
    specialize (Hinv _ Hs). rewrite (referenced_split id) in Hinv.
    unfold kept in Hkept.
    destruct (linked_to id (sticker_id s) (db_articleSticker db));
      [exact Hkept | exact Hinv].
Qed.

Lemma no_orphan_preserved_witness :
  no_orphan
    (fst (createArticle no_fault (post 2 "Z" (Some ["shared"; "new"; "new"]))
            x_and_y)) = true
  /\ no_orphan only_y = true.
Proof.
  split.
  - apply (proj1 (no_orphan_preserved no_fault x_and_y eq_refl)
             (post 2 "Z" (Some ["shared"; "new"; "new"])) _
             {| article_id := 3; article_userId := 2;
                article_title := "Z"; article_content := "Content" |}).
    reflexivity.
  - apply (proj2 (no_orphan_preserved no_fault x_and_y eq_refl) 1 only_y).
    reflexivity.
Defined.

(** ** Reading back what was written *)

Lemma next_id_above ids x : In x ids -> x < next_id ids.
Proof.
  unfold next_id. induction ids as [| y ids IH]; intros Hin; [destruct Hin |].
  cbn [fold_right]. destruct Hin as [-> | Hin]; [lia |].
  specialize (IH Hin). lia.
Qed.

Lemma find_fresh_article rows :
  find (has_article_id (next_id (map article_id rows))) rows = None.
Proof.
  destruct (find _ rows) as [a |] eqn:Hfind; [| reflexivity].
  apply find_some in Hfind as [Hin Hid].
  unfold has_article_id in Hid. apply Z.eqb_eq in Hid.
  pose proof (next_id_above _ _ (in_map article_id _ _ Hin)). lia.
Qed.

Lemma filter_all {A} (p : A -> bool) l :
  (forall x, In x l -> p x = true) -> filter p l = l.
Proof.
  induction l as [| x l IH]; intros Hall; [reflexivity |].
  cbn [filter]. rewrite (Hall x (or_introl eq_refl)).
  f_equal. apply IH. intros y Hy. apply Hall. right. exact Hy.
Qed.

Lemma filter_none {A} (p : A -> bool) l :
  (forall x, In x l -> p x = false) -> filter p l = [].
Proof.
  induction l as [| x l IH]; intros Hall; [reflexivity |].
  cbn [filter]. rewrite (Hall x (or_introl eq_refl)).
  apply IH. intros y Hy. apply Hall. right. exact Hy.
Qed.

Lemma find_after_overwrite id article rows :
  find (has_article_id id) rows <> None ->
  find (has_article_id id) (map (overwrite id article) rows)
  = Some (updated_row id article).
Proof.
  induction rows as [| row rows IH]; cbn [map find]; [contradiction |].
  unfold overwrite at 1 2.
  destruct (has_article_id id row) eqn:Hid.
  - intros _. unfold has_article_id. cbn [updated_row article_id].
    rewrite Z.eqb_refl. reflexivity.
  - rewrite Hid. exact IH.
Qed.

Lemma updateArticle_fulfilled fault id article db db' a :
  updateArticle fault id article db = (db', Fulfilled a) ->
  find (has_article_id id) (db_article db) <> None /\
  a = updated_row id article /\
  db' = set_article (map (overwrite id article) (db_article db)) db.
Proof.
  unfold updateArticle. intros Hrun.
  apply bind_fulfilled in Hrun as (existArticle & db1 & Hfind & Hrun).
  apply query_fulfilled in Hfind as (_ & -> & ->).
  destruct (find (has_article_id id) (db_article db)) as [old |] eqn:Hold;
    [| discriminate].
  split; [discriminate |].
  unfold try_catch in Hrun.
  destruct (Prisma.article_update fault id article db)
    as [db2 [a2 | e]] eqn:Hupdate; [| discriminate].
  inversion Hrun; subst db2 a2. clear Hrun.
  apply command_fulfilled in Hupdate as [_ Hupdate].
  rewrite Hold in Hupdate.
  destruct (existsb _ (db_article db)); [discriminate |].
  inversion Hupdate. split; reflexivity.
Qed.

(** X1: Creating an article and fetching it by the id it was given returns the
    very row [createArticle] returned, and the fetch writes nothing. *)
Theorem createArticle_then_getArticleById fault article db db' a :
  createArticle fault article db = (db', Fulfilled a) ->
  fault (ArticleFindUniqueId (article_id a)) db' = None ->
  getArticleById fault (article_id a) db' = (db', Fulfilled a).
Proof.
  intros Hrun Hanswered.
  apply createArticle_fulfilled in Hrun as [_ Hrun].
  apply createArticle_tx_fulfilled in Hrun as (Ha & _ & Hrows & _).
  unfold getArticleById, bind. unfold Prisma.article_findUnique_id.
  rewrite (query_answered _ _ _ _ Hanswered), Hrows.
  rewrite find_app_none.
  - cbn [find]. unfold has_article_id. rewrite Z.eqb_refl. reflexivity.
  - rewrite Ha. cbn [created_row article_id]. apply find_fresh_article.
Qed.

Lemma createArticle_then_getArticleById_witness :
  getArticleById no_fault 3 x_y_and_z
  = (x_y_and_z,
     Fulfilled {| article_id := 3; article_userId := 2;
                  article_title := "Z"; article_content := "Content" |}).
Proof.
  apply (createArticle_then_getArticleById
           no_fault (post 2 "Z" (Some ["shared"; "new"])) x_and_y x_y_and_z
           {| article_id := 3; article_userId := 2;
              article_title := "Z"; article_content := "Content" |});
    reflexivity.
Defined.

(** X2: After a fulfilled [deleteArticle], [getAll] lists exactly the articles
    that were there under another id. *)
Theorem deleteArticle_then_getAll fault id db db' :
  deleteArticle fault id db = (db', Fulfilled tt) ->
  fault ArticleFindMany db' = None ->
  exists rows,
    getAll fault db' = (db', Fulfilled rows) /\
    forall a, In a rows <-> In a (db_article db) /\ article_id a <> id.
Proof.
  intros Hrun Hanswered.
  apply deleteArticle_fulfilled in Hrun as [_ Hrun].
  apply deleteArticle_tx_fulfilled in Hrun as (_ & Hrows & _).
  exists (db_article db'). split.
  - unfold getAll, Prisma.article_findMany.
    rewrite (query_answered _ _ _ _ Hanswered). reflexivity.
  - intros a. rewrite Hrows, filter_In. unfold has_article_id.
    rewrite negb_true_iff, Z.eqb_neq. reflexivity.
Qed.

Lemma deleteArticle_then_getAll_witness :
  exists rows,
    getAll no_fault only_y = (only_y, Fulfilled rows) /\
    forall a, In a rows <-> In a (db_article x_and_y) /\ article_id a <> 1.
Proof.
  apply (deleteArticle_then_getAll no_fault 1 x_and_y only_y); reflexivity.
Defined.

(** X3: After a fulfilled [updateArticle], fetching the article by its id
    returns the row [updateArticle] returned: the id it had, with the
    owner, title and content of the request. *)
Theorem updateArticle_then_getArticleById fault id article db db' a :
  updateArticle fault id article db = (db', Fulfilled a) ->
  fault (ArticleFindUniqueId id) db' = None ->
  getArticleById fault id db' = (db', Fulfilled a) /\
  article_id a = id /\
  article_userId a = userId article /\
  article_title a = title article /\
  article_content a = content article.
Proof.
  intros Hrun Hanswered.
  apply updateArticle_fulfilled in Hrun as (Hold & -> & ->).
  split; [| repeat split].
  unfold getArticleById, bind. unfold Prisma.article_findUnique_id.
  rewrite (query_answered _ _ _ _ Hanswered).
  cbn [set_article db_article].
  pose proof (find_after_overwrite id article _ Hold) as Hnew.
  rewrite Hnew. reflexivity.
Qed.

Lemma updateArticle_then_getArticleById_witness :
  getArticleById no_fault 2
    (set_article
       [{| article_id := 2; article_userId := 2;
           article_title := "Z"; article_content := "Content" |}] only_y)
  = (set_article
       [{| article_id := 2; article_userId := 2;
           article_title := "Z"; article_content := "Content" |}] only_y,
     Fulfilled (updated_row 2 (post 2 "Z" None))) /\
  article_id (updated_row 2 (post 2 "Z" None)) = 2 /\
  article_userId (updated_row 2 (post 2 "Z" None)) = userId (post 2 "Z" None) /\
  article_title (updated_row 2 (post 2 "Z" None)) = title (post 2 "Z" None) /\
  article_content (updated_row 2 (post 2 "Z" None))
  = content (post 2 "Z" None).
Proof.
  apply (updateArticle_then_getArticleById
           no_fault 2 (post 2 "Z" None) only_y);
    reflexivity.
Defined.

(** X4: Deleting an article a second time is rejected with the
    [NotFoundException] "Article not found" and changes nothing. *)
Theorem deleteArticle_twice fault id db db' :
  deleteArticle fault id db = (db', Fulfilled tt) ->
  fault (ArticleFindUniqueId id) db' = None ->
  deleteArticle fault id db'
  = (db', Rejected (NotFoundException "Article not found")).
Proof.
  intros Hrun Hanswered.
  apply deleteArticle_fulfilled in Hrun as [_ Hrun].
  apply deleteArticle_tx_fulfilled in Hrun as (_ & Hrows & _).
  unfold deleteArticle, bind. unfold Prisma.article_findUnique_id.
  rewrite (query_answered _ _ _ _ Hanswered), Hrows, find_after_delete.
  reflexivity.
Qed.

Lemma deleteArticle_twice_witness :
  deleteArticle no_fault 1 only_y
  = (only_y, Rejected (NotFoundException "Article not found")).
Proof.
  apply (deleteArticle_twice no_fault 1 x_and_y only_y); reflexivity.
Defined.

(** ** When a call is fulfilled, and what a rejected call leaves *)

(** X5: With a database that refuses nothing, [createArticle] is fulfilled
    exactly when some user row has the owner id of the request and no
    article row has its title. *)
Theorem createArticle_fulfilled_iff article db :
  (exists db' a, createArticle no_fault article db = (db', Fulfilled a)) <->
  existsb (fun u => user_id u =? userId article) (db_user db) = true /\
  existsb (has_title (title article)) (db_article db) = false.
Proof.
  rewrite !find_existsb. split.
  - intros (db' & a & Hrun). unfold createArticle in Hrun.
    apply bind_fulfilled in Hrun as (user & db1 & Huser & Hrun).
    apply query_fulfilled in Huser as (_ & -> & ->).
    destruct (find (fun u => user_id u =? userId article) (db_user db));
      [| discriminate].
    apply bind_fulfilled in Hrun as (other & db1 & Htitle & Hrun).
    apply query_fulfilled in Htitle as (_ & -> & ->).
    destruct (find (has_title (title article)) (db_article db));
      [discriminate |].
    split; reflexivity.
  - intros [Huser Htitle].
    destruct (find (fun u => user_id u =? userId article) (db_user db))
      as [u |] eqn:Hu; [| discriminate].
    destruct (find (has_title (title article)) (db_article db))
      eqn:Ht; [discriminate |].
    apply (createArticle_runs article db u Hu Ht).
Qed.

Lemma createArticle_rejected_witness :
  fst (createArticle commit_fails (post 1 "T" (Some ["red"; "blue"]))
         two_users)
  = two_users.
Proof.
  apply (createArticle_rejected
           commit_fails (post 1 "T" (Some ["red"; "blue"])) two_users _
           (PrismaError "commit refused")).
  reflexivity.
Defined.

Lemma deleteArticle_rejected_witness :
  fst (deleteArticle sticker_delete_fails 1 x_and_y) = x_and_y.
Proof.
  apply (deleteArticle_rejected
           sticker_delete_fails 1 x_and_y _
           (PrismaError "sticker is in use")).
  reflexivity.
Defined.

(** In that run the links of the article had been removed when the
    deletion of the sticker was refused. *)
Example deleteArticle_tx_refused_midway :
  db_articleSticker (fst (deleteArticle_tx sticker_delete_fails 1 x_and_y))
  = [{| articleId := 2; stickerId := 2 |}].
Proof. reflexivity. Qed.

Lemma deleteArticle_runs_witness :
  exists db', deleteArticle no_fault 1 x_y_and_z = (db', Fulfilled tt).
Proof.
  apply (deleteArticle_runs 1 x_y_and_z
           {| article_id := 1; article_userId := 1;
              article_title := "X"; article_content := "Content" |});
    reflexivity.
Defined.

(** X9: For an id no article row has, [deleteArticle] is rejected with the
    [NotFoundException] "Article not found" before any transaction is
    begun, whatever else the database would refuse, and writes nothing. *)
Theorem deleteArticle_missing_not_found fault id db :
  fault (ArticleFindUniqueId id) db = None ->
  find (has_article_id id) (db_article db) = None ->
  deleteArticle fault id db
  = (db, Rejected (NotFoundException "Article not found")).
Proof.
  intros Hanswered Habsent. unfold deleteArticle, bind.
  unfold Prisma.article_findUnique_id.
  rewrite (query_answered _ _ _ _ Hanswered), Habsent. reflexivity.
Qed.

Lemma deleteArticle_missing_not_found_witness :
  deleteArticle sticker_delete_fails 999 x_and_y
  = (x_and_y, Rejected (NotFoundException "Article not found")).
Proof.
  apply deleteArticle_missing_not_found; reflexivity.
Defined.

(** ** Requests without stickers, and stickers that exist already *)

Lemma answered_unless_createMany fault c db :
  only_createMany_refused fault ->
  (forall rows, c <> ArticleStickerCreateMany rows) ->
  fault c db = None.
Proof.
  intros Honly Hother. destruct (fault c db) as [d |] eqn:Hc; [| reflexivity].
  destruct (Honly c db) as [rows Hrows]; [rewrite Hc; discriminate |].
  destruct (Hother rows Hrows).
Qed.

(** X10: A request that names no sticker ([stickers] absent or empty) issues no
    bulk insert of links: even with a database that refuses every such
    insert, and refuses nothing else, the call is fulfilled for an existing
    owner and a free title, and all it does is add the article row. *)
Theorem createArticle_without_stickers fault article db u :
  only_createMany_refused fault ->
  requested article = [] ->
  find (fun u => user_id u =? userId article) (db_user db) = Some u ->
  find (has_title (title article)) (db_article db) = None ->
  createArticle fault article db
  = (set_article (db_article db ++ [created_row article db]) db,
     Fulfilled (created_row article db)).
Proof.
  intros Honly Hnone Huser Htitle.
  assert (Hq : forall c d, (forall rows, c <> ArticleStickerCreateMany rows) ->
                           fault c d = None)
    by (intros c d Hc; apply answered_unless_createMany; assumption).
  unfold createArticle. unfold bind at 1. unfold Prisma.user_findUnique.
  rewrite query_answered, Huser by (apply Hq; discriminate).
  unfold bind at 1. unfold Prisma.article_findUnique_title.
  rewrite query_answered, Htitle by (apply Hq; discriminate).
  unfold Prisma.transaction.
  rewrite (Hq TransactionBegin) by discriminate.
  assert (Hbody : createArticle_tx fault article db
                  = (set_article (db_article db ++ [created_row article db]) db,
                     Fulfilled (created_row article db))).
  { unfold createArticle_tx. unfold bind at 1.
    replace (match stickers article with
             | Some names => resolveStickers fault names []
             | None => ret []
             end db) with (db, Fulfilled (@nil Sticker))
      by (unfold requested in Hnone; destruct (stickers article);
          [rewrite Hnone |]; reflexivity).
    unfold bind at 1. unfold Prisma.article_create, Prisma.command.
    rewrite (Hq (ArticleCreate (articleData_of article))) by discriminate.
    cbn [articleData_of data_title data_userId data_content].
    rewrite find_existsb, Htitle. reflexivity. }
  rewrite Hbody. rewrite (Hq TransactionCommit) by discriminate.
  reflexivity.
Qed.

Lemma createArticle_without_stickers_witness :
  createArticle createMany_fails (post 2 "Z" (Some [])) x_and_y
  = (set_article (db_article x_and_y
                  ++ [created_row (post 2 "Z" (Some [])) x_and_y]) x_and_y,
     Fulfilled (created_row (post 2 "Z" (Some [])) x_and_y)).
Proof.
  apply (createArticle_without_stickers
           createMany_fails (post 2 "Z" (Some [])) x_and_y {| user_id := 2 |});
    try reflexivity.
  intros c db Hc. destruct c; try (exfalso; apply Hc; reflexivity).
  eexists; reflexivity.
Defined.

Lemma count_name_member s rows :
  In s rows -> (1 <= count_name (sticker_name s) rows)%nat.
Proof.
  unfold count_name. induction rows as [| x rows IH]; intros Hin;
    [destruct Hin |].
  cbn [filter]. destruct Hin as [-> | Hin].
  - unfold has_name at 1. rewrite String.eqb_refl. cbn [length]. lia.
  - specialize (IH Hin). destruct (has_name (sticker_name s) x);
      cbn [length]; lia.
Qed.

Lemma map_found {A B} (f : B -> option A) (g : A -> B) l :
  Forall (fun x => f (g x) = Some x) l -> map Some l = map f (map g l).
Proof.
  induction 1 as [| x l Hx _ IH]; [reflexivity |].
  cbn [map]. rewrite Hx, IH. reflexivity.
Qed.

(** X11: When every requested name is the name of a sticker row already, a
    fulfilled [createArticle] leaves the sticker table as it is, and the
    link rows it adds join the article, name by name in the order of the
    request, to the first sticker row of that name. *)
Theorem createArticle_reuses_stickers fault article db db' a :
  all_stored (requested article) db = true ->
  createArticle fault article db = (db', Fulfilled a) ->
  db_sticker db' = db_sticker db /\
  exists recs,
    map Some recs
    = map (fun n => find (has_name n) (db_sticker db)) (requested article) /\
    db_articleSticker db' = db_articleSticker db ++ map (link_to a) recs.
Proof.
  unfold all_stored. intros Hstored Hrun. rewrite forallb_forall in Hstored.
  apply createArticle_fulfilled in Hrun as [_ Hrun].
  apply createArticle_tx_fulfilled in Hrun
    as (_ & _ & _ & recs & added & Hmap & Hgrow & Hin & Hall & Hcount & Hlinks).
  assert (Hadded : added = []).
  { destruct added as [| s added]; [reflexivity |]. exfalso.
    assert (Hs : In s recs) by (apply Hin; left; reflexivity).
    assert (Hname : In (sticker_name s) (requested article))
      by (rewrite <- Hmap; apply in_map, Hs).
    specialize (Hcount (sticker_name s)).
    replace (existsb (String.eqb (sticker_name s)) (requested article))
      with true in Hcount
      by (symmetry; apply existsb_exists; exists (sticker_name s);
          split; [exact Hname | apply String.eqb_refl]).
    specialize (Hstored _ Hname). rewrite find_existsb in Hstored.
    destruct (find (has_name (sticker_name s)) (db_sticker db))
      as [s0 |] eqn:Hfound; [| discriminate].
    apply find_some_count in Hfound.
    rewrite Hgrow, count_name_app in Hcount.
    pose proof (count_name_member s (s :: added) (or_introl eq_refl)). lia. }
  subst added. rewrite app_nil_r in Hgrow.
  split; [exact Hgrow |].
  exists recs. split; [| exact Hlinks].
  rewrite <- Hmap, <- Hgrow. apply map_found. exact Hall.
Qed.

Lemma createArticle_reuses_stickers_witness :
  db_sticker
    (fst (createArticle no_fault (post 2 "Z" (Some ["shared"; "only-x"]))
            x_and_y))
  = db_sticker x_and_y /\
  exists recs,
    map Some recs
    = map (fun n => find (has_name n) (db_sticker x_and_y))
          (requested (post 2 "Z" (Some ["shared"; "only-x"]))) /\
    db_articleSticker
      (fst (createArticle no_fault (post 2 "Z" (Some ["shared"; "only-x"]))
              x_and_y))
    = db_articleSticker x_and_y
      ++ map (link_to {| article_id := 3; article_userId := 2;
                         article_title := "Z";
                         article_content := "Content" |}) recs.
Proof.
  apply (createArticle_reuses_stickers
           no_fault (post 2 "Z" (Some ["shared"; "only-x"])) x_and_y);
    reflexivity.
Defined.

(** ** What a call leaves alone *)

(** X12: A fulfilled [createArticle] only adds rows: the user table is as it
    was, the article, sticker and link tables are the old ones followed by
    new rows; the new article row is the one returned and carries owner,
    title and content of the request; every new sticker row carries a
    requested name; every new link row belongs to the new article. *)
Theorem createArticle_only_adds fault article db db' a :
  createArticle fault article db = (db', Fulfilled a) ->
  db_user db' = db_user db /\
  db_article db' = db_article db ++ [a] /\
  article_userId a = userId article /\
  article_title a = title article /\
  article_content a = content article /\
  (exists added,
      db_sticker db' = db_sticker db ++ added /\
      forall s, In s added -> In (sticker_name s) (requested article)) /\
  (exists links,
      db_articleSticker db' = db_articleSticker db ++ links /\
      forall l, In l links -> articleId l = article_id a).
Proof.
  intros Hrun. apply createArticle_fulfilled in Hrun as [_ Hrun].
  apply createArticle_tx_fulfilled in Hrun
    as (Ha & Hu & Hrows & recs & added & Hmap & Hgrow & Hin & _ & _ & Hlinks).
  split; [exact Hu |]. split; [exact Hrows |].
  rewrite Ha. cbn [created_row article_userId article_title article_content].
  do 3 (split; [reflexivity |]). split.
  - exists added. split; [exact Hgrow |].
    intros s Hs. rewrite <- Hmap. apply in_map, Hin, Hs.
  - exists (map (link_to (created_row article db)) recs).
    rewrite <- Ha. split; [exact Hlinks |].
    intros l Hl. apply in_map_iff in Hl as (s & <- & _). reflexivity.
Qed.

Lemma createArticle_only_adds_witness :
  db_user x_y_and_z = db_user x_and_y /\
  db_article x_y_and_z
  = db_article x_and_y
    ++ [{| article_id := 3; article_userId := 2;
           article_title := "Z"; article_content := "Content" |}] /\
  2 = userId (post 2 "Z" (Some ["shared"; "new"])) /\
  "Z" = title (post 2 "Z" (Some ["shared"; "new"])) /\
  "Content" = content (post 2 "Z" (Some ["shared"; "new"])) /\
  (exists added,
      db_sticker x_y_and_z = db_sticker x_and_y ++ added /\
      forall s, In s added ->
                In (sticker_name s)
                   (requested (post 2 "Z" (Some ["shared"; "new"])))) /\
  (exists links,
      db_articleSticker x_y_and_z = db_articleSticker x_and_y ++ links /\
      forall l, In l links -> articleId l = 3).
Proof.
  apply (createArticle_only_adds
           no_fault (post 2 "Z" (Some ["shared"; "new"])) x_and_y x_y_and_z
           {| article_id := 3; article_userId := 2;
              article_title := "Z"; article_content := "Content" |}).
  reflexivity.
Defined.

(** X13: A fulfilled [deleteArticle] adds no sticker and no link, leaves the
    user table as it was, and keeps every sticker the article was not
    linked to, whether another article uses it or not. *)
Theorem deleteArticle_spares_foreign_stickers fault id db db' :
  deleteArticle fault id db = (db', Fulfilled tt) ->
  db_user db' = db_user db /\
  (forall s, In s (db_sticker db') -> In s (db_sticker db)) /\
  (forall l, In l (db_articleSticker db') -> In l (db_articleSticker db)) /\
  (forall s, In s (db_sticker db) ->
             linked_to id (sticker_id s) (db_articleSticker db) = false ->
             In s (db_sticker db')).
Proof.
  intros Hrun. apply deleteArticle_fulfilled in Hrun as [_ Hrun].
  apply deleteArticle_tx_fulfilled in Hrun as (Hu & _ & Hlinks & Hstickers).
  split; [exact Hu |]. rewrite Hlinks, Hstickers.
  split; [intros s Hs; apply filter_In in Hs as [Hs _]; exact Hs |].
  split; [intros l Hl; apply filter_In in Hl as [Hl _]; exact Hl |].
  intros s Hs Hfree. apply filter_In. split; [exact Hs |].
  unfold kept. rewrite Hfree. reflexivity.
Qed.

Lemma deleteArticle_spares_foreign_stickers_witness :
  db_user (fst (deleteArticle no_fault 2 x_y_and_z)) = db_user x_y_and_z /\
  (forall s, In s (db_sticker (fst (deleteArticle no_fault 2 x_y_and_z))) ->
             In s (db_sticker x_y_and_z)) /\
  (forall l,
      In l (db_articleSticker (fst (deleteArticle no_fault 2 x_y_and_z))) ->
      In l (db_articleSticker x_y_and_z)) /\
  (forall s, In s (db_sticker x_y_and_z) ->
             linked_to 2 (sticker_id s) (db_articleSticker x_y_and_z) = false ->
             In s (db_sticker (fst (deleteArticle no_fault 2 x_y_and_z)))).
Proof.
  apply (deleteArticle_spares_foreign_stickers no_fault 2 x_y_and_z).
  reflexivity.
Defined.

(** ** Titles stay unique *)

Lemma existsb_title rows t :
  existsb (String.eqb t) (map article_title rows)
  = existsb (has_title t) rows.
Proof.
  induction rows as [| a rows IH]; [reflexivity |].
  cbn [map existsb]. unfold has_title at 1.
  rewrite IH, String.eqb_sym. reflexivity.
Qed.

Lemma distinct_strings_snoc l x :
  distinct_strings (l ++ [x])
  = distinct_strings l && negb (existsb (String.eqb x) l).
Proof.
  induction l as [| y l IH]; [reflexivity |].
  cbn [app distinct_strings existsb]. rewrite IH, existsb_app.
  cbn [existsb]. rewrite orb_false_r, (String.eqb_sym x y).
  destruct (existsb (String.eqb y) l), (String.eqb y x),
    (distinct_strings l), (existsb (String.eqb x) l); reflexivity.
Qed.

Lemma distinct_titles_filter (p : Article -> bool) rows :
  distinct_strings (map article_title rows) = true ->
  distinct_strings (map article_title (filter p rows)) = true.
Proof.
  induction rows as [| a rows IH]; [reflexivity |].
  cbn [map distinct_strings filter]. intros Hd.
  apply andb_true_iff in Hd as [Hfresh Hd].
  destruct (p a); [| apply IH, Hd].
  cbn [map distinct_strings]. rewrite (IH Hd), andb_true_r.
  rewrite existsb_title in *. apply negb_true_iff in Hfresh.
  apply negb_true_iff.
  destruct (existsb (has_title (article_title a)) (filter p rows))
    eqn:Hex; [| reflexivity].
  apply existsb_exists in Hex as (b & Hb & Ht).
  apply filter_In in Hb as [Hb _].
  assert (existsb (has_title (article_title a)) rows = true)
    by (apply existsb_exists; exists b; split; assumption).
  congruence.
Qed.

(** X14: From a store in which no two articles have the same title, every
    fulfilled [createArticle] and every fulfilled [deleteArticle] leads to
    such a store. *)
Theorem unique_titles_preserved fault db :
  unique_titles db = true ->
  (forall article db' a,
      createArticle fault article db = (db', Fulfilled a) ->
      unique_titles db' = true) /\
  (forall id db',
      deleteArticle fault id db = (db', Fulfilled tt) ->
      unique_titles db' = true).
Proof.
  unfold unique_titles. intros Hunique. split.
  - intros article db' a Hrun.
    apply createArticle_fulfilled in Hrun as [Hfree Hrun].
    apply createArticle_tx_fulfilled in Hrun as (Ha & _ & Hrows & _).
    rewrite Hrows, map_app. cbn [map].
    rewrite distinct_strings_snoc, Hunique, existsb_title.
    rewrite Ha. cbn [created_row article_title].
    rewrite find_existsb, Hfree. reflexivity.
  - intros id db' Hrun.
    apply deleteArticle_fulfilled in Hrun as [_ Hrun].
    apply deleteArticle_tx_fulfilled in Hrun as (_ & Hrows & _).
    rewrite Hrows. apply distinct_titles_filter, Hunique.
Qed.

Lemma unique_titles_preserved_witness :
  unique_titles x_y_and_z = true /\ unique_titles only_y = true.
Proof.
  split.
  - apply (proj1 (unique_titles_preserved no_fault x_and_y eq_refl)
             (post 2 "Z" (Some ["shared"; "new"])) x_y_and_z
             {| article_id := 3; article_userId := 2;
                article_title := "Z"; article_content := "Content" |}).
    reflexivity.
  - apply (proj2 (unique_titles_preserved no_fault x_and_y eq_refl) 1 only_y).
    reflexivity.
Defined.

(** ** Creating an article and deleting it again *)

Lemma resolveStickers_added_above fault names :
  forall acc db db' recs added,
    resolveStickers fault names acc db = (db', Fulfilled recs) ->
    db_sticker db' = db_sticker db ++ added ->
    forall s' s, In s' added -> In s (db_sticker db) ->
                 sticker_id s < sticker_id s'.
Proof.
  induction names as [| x rest IH]; intros acc db db' recs added Hrun Hgrow.
  - inversion Hrun; subst db'.
    rewrite <- (app_nil_r (db_sticker db)) in Hgrow at 1.
    apply app_inv_head in Hgrow. subst added. intros s' s [].
  - cbn [resolveStickers] in Hrun.
    apply bind_fulfilled in Hrun as (found & db1 & Hfind & Hrest).
    apply query_fulfilled in Hfind as (_ & -> & ->).
    destruct (find (has_name x) (db_sticker db)) as [s0 |].
    + apply (IH _ _ _ _ _ Hrest Hgrow).
    + apply bind_fulfilled in Hrest as (row & db2 & Hnew & Hrest).
      apply sticker_create_fulfilled in Hnew as [Hrow ->].
      pose proof (resolveStickers_fulfilled _ _ _ _ _ _ Hrest)
        as (_ & _ & _ & new & added' & _ & _ & Hgrow' & _).
      cbn [set_sticker db_sticker] in Hgrow'.
      pose proof (IH _ _ _ _ _ Hrest Hgrow') as Habove.
      cbn [set_sticker db_sticker] in Habove.
      rewrite Hgrow', <- app_assoc in Hgrow.
      apply app_inv_head in Hgrow. subst added.
      intros s' s [<- | Hs'] Hs.
      * rewrite Hrow. cbn [sticker_id].
        apply next_id_above, in_map, Hs.
      * apply (Habove s' s Hs'). apply in_or_app. left. exact Hs.
Qed.

Lemma createArticle_tx_added_above fault article db db' a added :
  createArticle_tx fault article db = (db', Fulfilled a) ->
  db_sticker db' = db_sticker db ++ added ->
  forall s' s, In s' added -> In s (db_sticker db) ->
               sticker_id s < sticker_id s'.
Proof.
  unfold createArticle_tx. intros Hrun Hgrow.
  apply bind_fulfilled in Hrun as (recs & db1 & Hres & Hrun).
  assert (Hres' : resolveStickers fault (requested article) [] db
                  = (db1, Fulfilled recs))
    by (unfold requested; destruct (stickers article); exact Hres).
  apply bind_fulfilled in Hrun as (row & db2 & Hcreate & Hrun).
  apply command_fulfilled in Hcreate as [_ Hcreate].
  destruct (existsb _ (db_article db1)); [discriminate |].
  inversion Hcreate as [[Hdb2 Hrow]]. clear Hcreate.
  apply bind_fulfilled in Hrun as ([] & db3 & Hlinks & Hrun).
  inversion Hrun; subst db3. clear Hrun.
  assert (Hsame : db_sticker db' = db_sticker db1).
  { destruct recs as [| r recs].
    - inversion Hlinks; subst db' db2. reflexivity.
    - cbn [length Nat.ltb Nat.leb] in Hlinks.
      apply bind_fulfilled in Hlinks as (n & db4 & Hmany & Hret).
      inversion Hret; subst db4.
      apply command_fulfilled in Hmany as [_ Hmany].
      inversion Hmany. subst db2. reflexivity. }
  rewrite Hsame in Hgrow.
  apply (resolveStickers_added_above _ _ _ _ _ _ _ Hres' Hgrow).
Qed.

Lemma links_resolve_spec db l :
  links_resolve db = true -> In l (db_articleSticker db) ->
  (exists a, In a (db_article db) /\ article_id a = articleId l) /\
  (exists s, In s (db_sticker db) /\ sticker_id s = stickerId l).
Proof.
  unfold links_resolve. intros Hall Hl.
  rewrite forallb_forall in Hall. specialize (Hall _ Hl).
  apply andb_true_iff in Hall as [Ha Hs].
  apply existsb_exists in Ha as (a & Ha & Haid).
  apply existsb_exists in Hs as (s & Hs & Hsid).
  unfold has_article_id in Haid. unfold has_sticker_id in Hsid.
  apply Z.eqb_eq in Haid, Hsid.
  split; [exists a | exists s]; split; assumption.
Qed.

(** X15: In a store whose link rows join existing articles to existing stickers
    and in which every sticker is linked, creating an article and then
    deleting it gives back the store there was: the article row, its link
    rows and the stickers created for it are gone, and nothing else has
    changed. *)
Theorem createArticle_then_deleteArticle fault article db db1 a db2 :
  links_resolve db = true ->
  no_orphan db = true ->
  createArticle fault article db = (db1, Fulfilled a) ->
  deleteArticle fault (article_id a) db1 = (db2, Fulfilled tt) ->
  db2 = db.
Proof.
  intros Hresolve Hlinked Hcreate Hdelete.
  apply createArticle_fulfilled in Hcreate as [_ Hcreate].
  pose proof (createArticle_tx_fulfilled _ _ _ _ _ Hcreate)
    as (Ha & Hu & Hrows & recs & added & _ & Hgrow & Hin & _ & _ & Hlinks).
  pose proof (createArticle_tx_added_above _ _ _ _ _ _ Hcreate Hgrow)
    as Habove.
  apply deleteArticle_fulfilled in Hdelete as [_ Hdelete].
  apply deleteArticle_tx_fulfilled in Hdelete
    as (Hu2 & Hrows2 & Hlinks2 & Hstickers2).
  assert (Hid : article_id a = next_id (map article_id (db_article db)))
    by (rewrite Ha; reflexivity).
  assert (Hold : forall l, In l (db_articleSticker db) ->
                           of_article (article_id a) l = false).
  { intros l Hl.
    destruct (links_resolve_spec _ _ Hresolve Hl) as [(a0 & Ha0 & Heq) _].
    pose proof (next_id_above _ _ (in_map article_id _ _ Ha0)).
    unfold of_article. apply Z.eqb_neq. lia. }
  assert (Hnew : forall l, In l (map (link_to a) recs) ->
                           of_article (article_id a) l = true).
  { intros l Hl. apply in_map_iff in Hl as (s & <- & _).
    unfold of_article, link_to. cbn [articleId]. apply Z.eqb_refl. }
  assert (Earticles : db_article db2 = db_article db).
  { rewrite Hrows2, Hrows, filter_app. cbn [filter].
    unfold has_article_id at 2. rewrite Z.eqb_refl. cbn [negb].
    rewrite app_nil_r. apply filter_all. intros a0 Ha0.
    pose proof (next_id_above _ _ (in_map article_id _ _ Ha0)).
    unfold has_article_id. apply negb_true_iff, Z.eqb_neq. lia. }
  assert (Elinks : db_articleSticker db2 = db_articleSticker db).
  { rewrite Hlinks2, Hlinks, filter_app.
    rewrite (filter_all _ (db_articleSticker db))
      by (intros l Hl; rewrite (Hold l Hl); reflexivity).
    rewrite filter_none
      by (intros l Hl; rewrite (Hnew l Hl); reflexivity).
    apply app_nil_r. }
  assert (Estickers : db_sticker db2 = db_sticker db).
  { rewrite Hstickers2, Hgrow, Hlinks, filter_app.
    rewrite (filter_all _ (db_sticker db)).
    - rewrite filter_none; [apply app_nil_r |].
      intros s' Hs'. unfold kept.
      assert (Hmine : linked_to (article_id a) (sticker_id s')
                        (db_articleSticker db ++ map (link_to a) recs)
                      = true).
      { unfold linked_to. rewrite existsb_app. apply orb_true_iff. right.
        apply existsb_exists. exists (link_to a s'). split.
        - apply in_map, Hin, Hs'.
        - unfold of_article, link_to. cbn [articleId stickerId].
          rewrite !Z.eqb_refl. reflexivity. }
      rewrite Hmine. cbn [negb orb].
      unfold linked_elsewhere.
      destruct (existsb (other_connection (sticker_id s') (article_id a))
                  (db_articleSticker db ++ map (link_to a) recs))
        eqn:Hex; [| reflexivity].
      exfalso. apply existsb_exists in Hex as (l & Hl & Hoc).
      unfold other_connection in Hoc.
      apply andb_true_iff in Hoc as [Hsid Haid].
      apply Z.eqb_eq in Hsid. apply negb_true_iff in Haid.
      apply in_app_or in Hl as [Hl | Hl].
      + destruct (links_resolve_spec _ _ Hresolve Hl) as [_ (s & Hs & Heq)].
        pose proof (Habove s' s Hs' Hs). lia.
      + specialize (Hnew l Hl). unfold of_article in Hnew. congruence.
    - intros s Hs. unfold kept. apply orb_true_iff. right.
      unfold no_orphan in Hlinked. rewrite forallb_forall in Hlinked.
      specialize (Hlinked s Hs). unfold referenced in Hlinked.
      apply existsb_exists in Hlinked as (l & Hl & Hsid).
      unfold linked_elsewhere. rewrite existsb_app. apply orb_true_iff. left.
      apply existsb_exists. exists l. split; [exact Hl |].
      unfold other_connection. rewrite Hsid.
      specialize (Hold l Hl). unfold of_article in Hold. rewrite Hold.
      reflexivity. }
  destruct db2, db. cbn in *. congruence.
Qed.

Lemma createArticle_then_deleteArticle_witness :
  fst (deleteArticle no_fault 3 x_y_and_z) = x_and_y.
Proof.
  apply (createArticle_then_deleteArticle
           no_fault (post 2 "Z" (Some ["shared"; "new"])) x_and_y x_y_and_z
           {| article_id := 3; article_userId := 2;
              article_title := "Z"; article_content := "Content" |});
    reflexivity.
Defined.

(** ** Link rows keep pointing at rows that exist *)

(** X16: From a store in which every link row joins an existing article to an
    existing sticker, every fulfilled [createArticle] and every fulfilled
    [deleteArticle] leads to such a store: the links a creation adds point
    to the new article and to stickers of the table, and a deletion never
    removes an article or a sticker that a remaining link points to. *)
Theorem links_resolve_preserved fault db :
  links_resolve db = true ->
  (forall article db' a,
      createArticle fault article db = (db', Fulfilled a) ->
      links_resolve db' = true) /\
  (forall id db',
      deleteArticle fault id db = (db', Fulfilled tt) ->
      links_resolve db' = true).
Proof.
  intros Hresolve. split.
  - intros article db' a Hrun.
    apply createArticle_fulfilled in Hrun as [_ Hrun].
    apply createArticle_tx_fulfilled in Hrun
      as (_ & _ & Hrows & recs & added & _ & Hgrow & _ & Hall & _ & Hlinks).
    unfold links_resolve. apply forallb_forall. intros l Hl.
    rewrite Hlinks in Hl. apply in_app_or in Hl as [Hl | Hl].
    + destruct (links_resolve_spec _ _ Hresolve Hl)
        as [(a0 & Ha0 & Haid) (s & Hs & Hsid)].
      apply andb_true_iff. split; apply existsb_exists.
      * exists a0. split; [rewrite Hrows; apply in_or_app; left; exact Ha0 |].
        unfold has_article_id. apply Z.eqb_eq, Haid.
      * exists s. split; [rewrite Hgrow; apply in_or_app; left; exact Hs |].
        unfold has_sticker_id. apply Z.eqb_eq, Hsid.
    + apply in_map_iff in Hl as (s & <- & Hs).
      rewrite Forall_forall in Hall. specialize (Hall s Hs).
      apply find_some in Hall as [Hin _].
      apply andb_true_iff. split; apply existsb_exists.
      * exists a. split; [rewrite Hrows; apply in_or_app; right; left;
                          reflexivity |].
        unfold has_article_id, link_to. apply Z.eqb_refl.
      * exists s. split; [exact Hin |].
        unfold has_sticker_id, link_to. apply Z.eqb_refl.
  - intros id db' Hrun.
    apply deleteArticle_fulfilled in Hrun as [_ Hrun].
    apply deleteArticle_tx_fulfilled in Hrun as (_ & Hrows & Hlinks & Hstickers).
    unfold links_resolve. apply forallb_forall. intros l Hl.
    rewrite Hlinks in Hl. apply filter_In in Hl as [Hl Hother].
    unfold of_article in Hother. apply negb_true_iff in Hother.
    destruct (links_resolve_spec _ _ Hresolve Hl)
      as [(a0 & Ha0 & Haid) (s & Hs & Hsid)].
    apply andb_true_iff. split; apply existsb_exists.
    + exists a0. split; [| unfold has_article_id; apply Z.eqb_eq, Haid].
      rewrite Hrows. apply filter_In. split; [exact Ha0 |].
      unfold has_article_id. rewrite Haid, Hother. reflexivity.
    + exists s. split; [| unfold has_sticker_id; apply Z.eqb_eq, Hsid].
      rewrite Hstickers. apply filter_In. split; [exact Hs |].
      unfold kept. apply orb_true_iff. right.
      unfold linked_elsewhere. apply existsb_exists. exists l.
      split; [exact Hl |].
      unfold other_connection. rewrite Hsid, Z.eqb_refl, Hother. reflexivity.
Qed.

Lemma links_resolve_preserved_witness :
  links_resolve x_y_and_z = true /\ links_resolve only_y = true.
Proof.
  split.
  - apply (proj1 (links_resolve_preserved no_fault x_and_y eq_refl)
             (post 2 "Z" (Some ["shared"; "new"])) x_y_and_z
             {| article_id := 3; article_userId := 2;
                article_title := "Z"; article_content := "Content" |}).
    reflexivity.
  - apply (proj2 (links_resolve_preserved no_fault x_and_y eq_refl) 1 only_y).
    reflexivity.
Defined.

(** ** Sticker names stay unique *)

Lemma existsb_name rows n :
  existsb (String.eqb n) (map sticker_name rows)
  = existsb (has_name n) rows.
Proof.
  induction rows as [| s rows IH]; [reflexivity |].
  cbn [map existsb]. unfold has_name at 1.
  rewrite IH, String.eqb_sym. reflexivity.
Qed.

Lemma distinct_names_filter (p : Sticker -> bool) rows :
  distinct_strings (map sticker_name rows) = true ->
  distinct_strings (map sticker_name (filter p rows)) = true.
Proof.
  induction rows as [| s rows IH]; [reflexivity |].
  cbn [map distinct_strings filter]. intros Hd.
  apply andb_true_iff in Hd as [Hfresh Hd].
  destruct (p s); [| apply IH, Hd].
  cbn [map distinct_strings]. rewrite (IH Hd), andb_true_r.
  rewrite existsb_name in *. apply negb_true_iff in Hfresh.
  apply negb_true_iff.
  destruct (existsb (has_name (sticker_name s)) (filter p rows))
    eqn:Hex; [| reflexivity].
  apply existsb_exists in Hex as (b & Hb & Hn).
  apply filter_In in Hb as [Hb _].
  assert (existsb (has_name (sticker_name s)) rows = true)
    by (apply existsb_exists; exists b; split; assumption).
  congruence.
Qed.

Lemma resolveStickers_unique_names fault names :
  forall acc db db' recs,
    resolveStickers fault names acc db = (db', Fulfilled recs) ->
    unique_names db = true -> unique_names db' = true.
Proof.
  induction names as [| x rest IH]; intros acc db db' recs Hrun Hunique.
  - inversion Hrun; subst db'. exact Hunique.
  - cbn [resolveStickers] in Hrun.
    apply bind_fulfilled in Hrun as (found & db1 & Hfind & Hrest).
    apply query_fulfilled in Hfind as (_ & -> & ->).
    destruct (find (has_name x) (db_sticker db)) as [s0 |] eqn:Hlook.
    + apply (IH _ _ _ _ Hrest Hunique).
    + apply bind_fulfilled in Hrest as (row & db2 & Hnew & Hrest).
      apply sticker_create_fulfilled in Hnew as [Hrow ->].
      apply (IH _ _ _ _ Hrest).
      unfold unique_names in *. cbn [set_sticker db_sticker].
      rewrite map_app. cbn [map].
      rewrite distinct_strings_snoc, Hunique, existsb_name.
      rewrite Hrow. cbn [sticker_name].
      rewrite find_existsb, Hlook. reflexivity.
Qed.

(** X17: From a store in which no two stickers have the same name, every
    fulfilled [createArticle] and every fulfilled [deleteArticle] leads to
    such a store: a requested name is looked up before it is created, also
    when the request repeats it. *)
Theorem unique_names_preserved fault db :
  unique_names db = true ->
  (forall article db' a,
      createArticle fault article db = (db', Fulfilled a) ->
      unique_names db' = true) /\
  (forall id db',
      deleteArticle fault id db = (db', Fulfilled tt) ->
      unique_names db' = true).
Proof.
  intros Hunique. split.
  - intros article db' a Hrun.
    apply createArticle_fulfilled in Hrun as [_ Hrun].
    unfold createArticle_tx in Hrun.
    apply bind_fulfilled in Hrun as (recs & db1 & Hres & Hrun).
    assert (Hres' : resolveStickers fault (requested article) [] db
                    = (db1, Fulfilled recs))
      by (unfold requested; destruct (stickers article); exact Hres).
    apply resolveStickers_unique_names in Hres'; [| exact Hunique].
    apply bind_fulfilled in Hrun as (row & db2 & Hcreate & Hrun).
    apply command_fulfilled in Hcreate as [_ Hcreate].
    destruct (existsb _ (db_article db1)); [discriminate |].
    inversion Hcreate as [[Hdb2 Hrow]]. clear Hcreate.
    apply bind_fulfilled in Hrun as ([] & db3 & Hlinks & Hrun).
    inversion Hrun; subst db3. clear Hrun.
    assert (Hsame : db_sticker db' = db_sticker db1).
    { destruct recs as [| r recs].
      - inversion Hlinks; subst db' db2. reflexivity.
      - cbn [length Nat.ltb Nat.leb] in Hlinks.
        apply bind_fulfilled in Hlinks as (n & db4 & Hmany & Hret).
        inversion Hret; subst db4.
        apply command_fulfilled in Hmany as [_ Hmany].
        inversion Hmany. subst db2. reflexivity. }
    unfold unique_names in *. rewrite Hsame. exact Hres'.
  - intros id db' Hrun.
    apply deleteArticle_fulfilled in Hrun as [_ Hrun].
    apply deleteArticle_tx_fulfilled in Hrun as (_ & _ & _ & Hstickers).
    unfold unique_names in *. rewrite Hstickers.
    apply distinct_names_filter, Hunique.
Qed.

Lemma unique_names_preserved_witness :
  unique_names
    (fst (createArticle no_fault
            (post 2 "Z" (Some ["new"; "shared"; "new"])) x_and_y)) = true
  /\ unique_names only_y = true.
Proof.
  split.
  - apply (proj1 (unique_names_preserved no_fault x_and_y eq_refl)
             (post 2 "Z" (Some ["new"; "shared"; "new"])) _
             {| article_id := 3; article_userId := 2;
                article_title := "Z"; article_content := "Content" |}).
    reflexivity.
  - apply (proj2 (unique_names_preserved no_fault x_and_y eq_refl) 1 only_y).
    reflexivity.
Defined.

(** ** The users service: running the building blocks *)

Section UserRuns.

Variable fault : UsersService.Faults.

Lemma user_bind_fulfilled {A B} (m : UsersService.Task A)
  (k : A -> UsersService.Task B) t t' b :
  UsersService.bind m k t = (t', Fulfilled b) ->
  exists a t1, m t = (t1, Fulfilled a) /\ k a t1 = (t', Fulfilled b).
Proof.
  unfold UsersService.bind. destruct (m t) as [t1 [a | e]]; intros H.
  - exists a, t1. split; [reflexivity | exact H].
  - discriminate H.
Qed.

Lemma user_query_fulfilled {A} c (answer : UsersService.Table -> A) t t' a :
  UsersService.query fault c answer t = (t', Fulfilled a) ->
  fault c t = None /\ t' = t /\ a = answer t.
Proof.
  unfold UsersService.query. destruct (fault c t); intros H; inversion H.
  split; [reflexivity | split; reflexivity].
Qed.

Lemma user_query_answered {A} c (answer : UsersService.Table -> A) t :
  fault c t = None ->
  UsersService.query fault c answer t = (t, Fulfilled (answer t)).
Proof. unfold UsersService.query. intros ->. reflexivity. Qed.

Lemma user_command_fulfilled {A} c
  (exec : UsersService.Table -> string + UsersService.Table * A) t t' a :
  UsersService.command fault c exec t = (t', Fulfilled a) ->
  fault c t = None /\ exec t = inr (t', a).
Proof.
  unfold UsersService.command. destruct (fault c t); [discriminate |].
  destruct (exec t) as [d | [t1 a1]]; intros H; inversion H.
  split; reflexivity.
Qed.

Lemma user_command_rejected {A} c
  (exec : UsersService.Table -> string + UsersService.Table * A) t t' e :
  UsersService.command fault c exec t = (t', Rejected e) -> t' = t.
Proof.
  unfold UsersService.command. destruct (fault c t).
  - intros H; inversion H; reflexivity.
  - destruct (exec t) as [d | [t1 a1]]; intros H; inversion H; reflexivity.
Qed.

Variable genSalt : UsersService.Table -> string.
Variable hash : string -> string -> string.

Lemma createUser_fulfilled user t t' u :
  UsersService.createUser fault genSalt hash user t = (t', Fulfilled u) ->
  find (UsersService.has_login (UsersService.login user)) t = None /\
  u = UsersService.record_of (next_id (map UsersService.id t))
        (UsersService.with_password
           (hash (UsersService.password user) (genSalt t)) user) /\
  t' = t ++ [u].
Proof.
  unfold UsersService.createUser. intros Hrun.
  apply user_bind_fulfilled in Hrun as (existing & t1 & Hfind & Hrun).
  apply user_query_fulfilled in Hfind as (_ & -> & ->).
  destruct (find (UsersService.has_login (UsersService.login user)) t);
    [discriminate |].
  split; [reflexivity |].
  apply user_bind_fulfilled in Hrun as (salt & t1 & Hsalt & Hrun).
  unfold UsersService.bcrypt_genSalt in Hsalt.
  destruct (fault UsersService.GenSalt t); [discriminate |].
  inversion Hsalt; subst t1 salt. clear Hsalt.
  apply user_bind_fulfilled in Hrun as (hashed & t1 & Hhash & Hrun).
  unfold UsersService.bcrypt_hash in Hhash.
  destruct (fault (UsersService.Hash _ _) t); [discriminate |].
  inversion Hhash; subst t1 hashed. clear Hhash.
  apply user_command_fulfilled in Hrun as [_ Hrun].
  destruct (existsb _ t); [discriminate |].
  inversion Hrun. split; reflexivity.
Qed.

Lemma updateUser_fulfilled i user t t' u :
  UsersService.updateUser fault i user t = (t', Fulfilled u) ->
  find (UsersService.has_id i) t <> None /\
  u = UsersService.record_of i user /\
  t' = map (fun x => if UsersService.has_id i x
                     then UsersService.record_of i user else x) t.
Proof.
  unfold UsersService.updateUser. intros Hrun.
  apply user_bind_fulfilled in Hrun as (existUser & t1 & Hfind & Hrun).
  apply user_query_fulfilled in Hfind as (_ & -> & ->).
  destruct (find (UsersService.has_id i) t) as [old |] eqn:Hold;
    [| discriminate].
  split; [discriminate |].
  unfold UsersService.try_catch in Hrun.
  destruct (UsersService.user_update fault i user t)
    as [t2 [u2 | e]] eqn:Hupdate; [| discriminate].
  inversion Hrun; subst t2 u2. clear Hrun.
  apply user_command_fulfilled in Hupdate as [_ Hupdate].
  rewrite Hold in Hupdate.
  destruct (existsb _ t); [discriminate |].
  inversion Hupdate. split; reflexivity.
Qed.

Lemma deleteUser_fulfilled i t t' :
  UsersService.deleteUser fault i t = (t', Fulfilled tt) ->
  find (UsersService.has_id i) t <> None /\
  t' = filter (fun x => negb (UsersService.has_id i x)) t.
Proof.
  unfold UsersService.deleteUser. intros Hrun.
  apply user_bind_fulfilled in Hrun as (existUser & t1 & Hfind & Hrun).
  apply user_query_fulfilled in Hfind as (_ & -> & ->).
  destruct (find (UsersService.has_id i) t) as [old |] eqn:Hold;
    [| discriminate].
  split; [discriminate |].
  apply user_bind_fulfilled in Hrun as (gone & t1 & Hdel & Hret).
  inversion Hret; subst t1. clear Hret.
  apply user_command_fulfilled in Hdel as [_ Hdel].
  rewrite Hold in Hdel. inversion Hdel. reflexivity.
Qed.

End UserRuns.

Lemma find_fresh_user t :
  find (UsersService.has_id (next_id (map UsersService.id t))) t = None.
Proof.
  destruct (find _ t) as [u |] eqn:Hfind; [| reflexivity].
  apply find_some in Hfind as [Hin Hid].
  unfold UsersService.has_id in Hid. apply Z.eqb_eq in Hid.
  pose proof (next_id_above _ _ (in_map UsersService.id _ _ Hin)). lia.
Qed.

Lemma existsb_login t l :
  existsb (String.eqb l) (map UsersService.user_login t)
  = existsb (UsersService.has_login l) t.
Proof.
  induction t as [| u t IH]; [reflexivity |].
  cbn [map existsb]. unfold UsersService.has_login at 1.
  rewrite IH, String.eqb_sym. reflexivity.
Qed.

Lemma distinct_logins_filter (p : UsersService.UserRecord -> bool) t :
  distinct_strings (map UsersService.user_login t) = true ->
  distinct_strings (map UsersService.user_login (filter p t)) = true.
Proof.
  induction t as [| u t IH]; [reflexivity |].
  cbn [map distinct_strings filter]. intros Hd.
  apply andb_true_iff in Hd as [Hfresh Hd].
  destruct (p u); [| apply IH, Hd].
  cbn [map distinct_strings]. rewrite (IH Hd), andb_true_r.
  rewrite existsb_login in *. apply negb_true_iff in Hfresh.
  apply negb_true_iff.
  destruct (existsb (UsersService.has_login (UsersService.user_login u))
              (filter p t)) eqn:Hex; [| reflexivity].
  apply existsb_exists in Hex as (b & Hb & Hl).
  apply filter_In in Hb as [Hb _].
  assert (existsb (UsersService.has_login (UsersService.user_login u)) t
          = true)
    by (apply existsb_exists; exists b; split; assumption).
  congruence.
Qed.

(** ** The users service: creating, reading, updating, deleting *)

(** X19: A fulfilled [createUser] adds one row at the end of the table and
    returns it: it carries the login and the names of the request, an
    identifier above all those in use, and as password the hash of the
    request's password with the salt drawn -- not the password itself. *)
Theorem createUser_stores_hashed_password fault genSalt hash user t t' u :
  UsersService.createUser fault genSalt hash user t = (t', Fulfilled u) ->
  t' = t ++ [u] /\
  UsersService.user_login u = UsersService.login user /\
  UsersService.user_password u
  = hash (UsersService.password user) (genSalt t) /\
  UsersService.user_firstname u = UsersService.firstname user /\
  UsersService.user_lastname u = UsersService.lastname user /\
  forall x, In x t -> UsersService.id x < UsersService.id u.
Proof.
  intros Hrun. apply createUser_fulfilled in Hrun as (_ & Hu & Ht).
  split; [exact Ht |]. rewrite Hu. cbn.
  do 4 (split; [reflexivity |]).
  intros x Hx. apply next_id_above, in_map, Hx.
Qed.

Lemma createUser_stores_hashed_password_witness :
  [UsersService.ann_row] = [] ++ [UsersService.ann_row] /\
  UsersService.user_login UsersService.ann_row
  = UsersService.login UsersService.ann /\
  UsersService.user_password UsersService.ann_row
  = UsersService.tagged_hash (UsersService.password UsersService.ann)
      (UsersService.salt_of_size []) /\
  UsersService.user_firstname UsersService.ann_row
  = UsersService.firstname UsersService.ann /\
  UsersService.user_lastname UsersService.ann_row
  = UsersService.lastname UsersService.ann /\
  forall x, In x [] -> UsersService.id x < UsersService.id UsersService.ann_row.
Proof.
  apply (createUser_stores_hashed_password
           UsersService.quiet UsersService.salt_of_size
           UsersService.tagged_hash UsersService.ann []
           [UsersService.ann_row] UsersService.ann_row).
  reflexivity.
Defined.

(** X20: With a database that refuses nothing, [createUser] is fulfilled
    exactly when no row of the table has the login of the request. *)
Theorem createUser_fulfilled_iff genSalt hash user t :
  (exists t' u,
      UsersService.createUser UsersService.quiet genSalt hash user t
      = (t', Fulfilled u)) <->
  existsb (UsersService.has_login (UsersService.login user)) t = false.
Proof.
  rewrite find_existsb. split.
  - intros (t' & u & Hrun).
    apply createUser_fulfilled in Hrun as (Hfree & _). rewrite Hfree.
    reflexivity.
  - intros Hfree.
    destruct (find (UsersService.has_login (UsersService.login user)) t)
      eqn:Hfind; [discriminate |].
    unfold UsersService.createUser, UsersService.bind.
    unfold UsersService.user_findUnique_login, UsersService.query.
    unfold UsersService.quiet at 1. rewrite Hfind.
    unfold UsersService.bcrypt_genSalt, UsersService.bcrypt_hash.
    unfold UsersService.ret, UsersService.user_create, UsersService.command.
    unfold UsersService.quiet. cbn [UsersService.with_password
                                      UsersService.login].
    rewrite find_existsb, Hfind. eexists. eexists. reflexivity.
Qed.

(** X21: Creating a user and fetching it by the id it was given returns the
    row [createUser] returned. *)
Theorem createUser_then_getUserById fault genSalt hash user t t' u :
  UsersService.createUser fault genSalt hash user t = (t', Fulfilled u) ->
  fault (UsersService.FindUniqueId (UsersService.id u)) t' = None ->
  UsersService.getUserById fault (UsersService.id u) t' = (t', Fulfilled u).
Proof.
  intros Hrun Hanswered.
  apply createUser_fulfilled in Hrun as (_ & Hu & ->).
  unfold UsersService.getUserById, UsersService.bind.
  unfold UsersService.user_findUnique_id.
  rewrite (user_query_answered _ _ _ _ Hanswered).
  rewrite find_app_none.
  - cbn [find]. unfold UsersService.has_id. rewrite Z.eqb_refl. reflexivity.
  - rewrite Hu. cbn [UsersService.record_of UsersService.id].
    apply find_fresh_user.
Qed.

Lemma createUser_then_getUserById_witness :
  UsersService.getUserById UsersService.quiet 1 [UsersService.ann_row]
  = ([UsersService.ann_row], Fulfilled UsersService.ann_row).
Proof.
  apply (createUser_then_getUserById
           UsersService.quiet UsersService.salt_of_size
           UsersService.tagged_hash UsersService.ann []
           [UsersService.ann_row] UsersService.ann_row);
    reflexivity.
Defined.

(** X22: After a fulfilled [createUser], a second call with the same login,
    whatever its password and names, is rejected with the
    [ForbiddenException] "User with this login already exists" and writes
    nothing. *)
Theorem createUser_twice fault genSalt hash first second t t1 u :
  UsersService.createUser fault genSalt hash first t = (t1, Fulfilled u) ->
  UsersService.login second = UsersService.login first ->
  fault (UsersService.FindUniqueLogin (UsersService.login second)) t1 = None ->
  UsersService.createUser fault genSalt hash second t1
  = (t1, Rejected (ForbiddenException "User with this login already exists")).
Proof.
  intros Hfirst Hlogin Hanswered.
  apply createUser_fulfilled in Hfirst as (Hfree & Hu & ->).
  unfold UsersService.createUser, UsersService.bind.
  unfold UsersService.user_findUnique_login.
  rewrite (user_query_answered _ _ _ _ Hanswered), Hlogin.
  rewrite (find_app_none _ _ _ Hfree). cbn [find].
  unfold UsersService.has_login. rewrite Hu.
  cbn [UsersService.record_of UsersService.user_login
         UsersService.with_password UsersService.login].
  rewrite String.eqb_refl. reflexivity.
Qed.

Lemma createUser_twice_witness :
  UsersService.createUser UsersService.quiet UsersService.salt_of_size
    UsersService.tagged_hash
    {| UsersService.login := "ann"; UsersService.password := "other";
       UsersService.firstname := "Anna"; UsersService.lastname := "Li" |}
    [UsersService.ann_row]
  = ([UsersService.ann_row],
     Rejected (ForbiddenException "User with this login already exists")).
Proof.
  apply (createUser_twice
           UsersService.quiet UsersService.salt_of_size
           UsersService.tagged_hash UsersService.ann
           {| UsersService.login := "ann"; UsersService.password := "other";
              UsersService.firstname := "Anna";
              UsersService.lastname := "Li" |}
           [] [UsersService.ann_row] UsersService.ann_row);
    reflexivity.
Defined.

Lemma find_after_user_update i data t :
  find (UsersService.has_id i) t <> None ->
  find (UsersService.has_id i)
    (map (fun x => if UsersService.has_id i x
                   then UsersService.record_of i data else x) t)
  = Some (UsersService.record_of i data).
Proof.
  induction t as [| x t IH]; cbn [map find]; [contradiction |].
  destruct (UsersService.has_id i x) eqn:Hid.
  - intros _. unfold UsersService.has_id.
    cbn [UsersService.record_of UsersService.id].
    rewrite Z.eqb_refl. reflexivity.
  - rewrite Hid. exact IH.
Qed.

(** X23: A fulfilled [updateUser] writes the password of the request as it is
    given -- it draws no salt and applies no hash -- together with the
    login and the names; fetching the user afterwards returns that row. *)
Theorem updateUser_stores_password_as_given fault i user t t' u :
  UsersService.updateUser fault i user t = (t', Fulfilled u) ->
  fault (UsersService.FindUniqueId i) t' = None ->
  UsersService.getUserById fault i t' = (t', Fulfilled u) /\
  UsersService.id u = i /\
  UsersService.user_password u = UsersService.password user /\
  UsersService.user_login u = UsersService.login user /\
  UsersService.user_firstname u = UsersService.firstname user /\
  UsersService.user_lastname u = UsersService.lastname user.
Proof.
  intros Hrun Hanswered.
  apply updateUser_fulfilled in Hrun as (Hold & -> & ->).
  split; [| repeat split].
  unfold UsersService.getUserById, UsersService.bind.
  unfold UsersService.user_findUnique_id.
  rewrite (user_query_answered _ _ _ _ Hanswered).
  rewrite (find_after_user_update i user t Hold). reflexivity.
Qed.

Lemma updateUser_stores_password_as_given_witness :
  UsersService.getUserById UsersService.quiet 1
    [UsersService.record_of 1 UsersService.ann]
  = ([UsersService.record_of 1 UsersService.ann],
     Fulfilled (UsersService.record_of 1 UsersService.ann)) /\
  UsersService.id (UsersService.record_of 1 UsersService.ann) = 1 /\
  UsersService.user_password (UsersService.record_of 1 UsersService.ann)
  = UsersService.password UsersService.ann /\
  UsersService.user_login (UsersService.record_of 1 UsersService.ann)
  = UsersService.login UsersService.ann /\
  UsersService.user_firstname (UsersService.record_of 1 UsersService.ann)
  = UsersService.firstname UsersService.ann /\
  UsersService.user_lastname (UsersService.record_of 1 UsersService.ann)
  = UsersService.lastname UsersService.ann.
Proof.
  apply (updateUser_stores_password_as_given
           UsersService.quiet 1 UsersService.ann [UsersService.ann_row]);
    reflexivity.
Defined.

Lemma find_after_user_delete i t :
  find (UsersService.has_id i)
    (filter (fun x => negb (UsersService.has_id i x)) t) = None.
Proof.
  induction t as [| x t IH]; [reflexivity |].
  cbn [filter]. destruct (UsersService.has_id i x) eqn:Hid; cbn [negb];
    [exact IH |].
  cbn [find]. rewrite Hid. exact IH.
Qed.

(** X24: After a fulfilled [deleteUser], fetching the user, updating it and
    deleting it again are each rejected with the [NotFoundException]
    "User not found", and none of them writes. *)
Theorem deleteUser_then_not_found fault i t t' :
  UsersService.deleteUser fault i t = (t', Fulfilled tt) ->
  fault (UsersService.FindUniqueId i) t' = None ->
  UsersService.getUserById fault i t'
  = (t', Rejected (NotFoundException "User not found")) /\
  (forall user,
      UsersService.updateUser fault i user t'
      = (t', Rejected (NotFoundException "User not found"))) /\
  UsersService.deleteUser fault i t'
  = (t', Rejected (NotFoundException "User not found")).
Proof.
  intros Hrun Hanswered.
  apply deleteUser_fulfilled in Hrun as (_ & ->).
  unfold UsersService.getUserById, UsersService.updateUser.
  unfold UsersService.deleteUser, UsersService.bind.
  unfold UsersService.user_findUnique_id.
  rewrite (user_query_answered _ _ _ _ Hanswered), find_after_user_delete.
  split; [reflexivity | split; [intros user; reflexivity | reflexivity]].
Qed.

Lemma deleteUser_then_not_found_witness :
  UsersService.getUserById UsersService.quiet 1 []
  = ([], Rejected (NotFoundException "User not found")) /\
  (forall user,
      UsersService.updateUser UsersService.quiet 1 user []
      = ([], Rejected (NotFoundException "User not found"))) /\
  UsersService.deleteUser UsersService.quiet 1 []
  = ([], Rejected (NotFoundException "User not found")).
Proof.
  apply (deleteUser_then_not_found
           UsersService.quiet 1 [UsersService.ann_row] []);
    reflexivity.
Defined.

(** X25: From a table in which no two users have the same login, every
    fulfilled [createUser] and every fulfilled [deleteUser] leads to such
    a table. *)
Theorem unique_logins_preserved fault genSalt hash t :
  UsersService.unique_logins t = true ->
  (forall user t' u,
      UsersService.createUser fault genSalt hash user t = (t', Fulfilled u) ->
      UsersService.unique_logins t' = true) /\
  (forall i t',
      UsersService.deleteUser fault i t = (t', Fulfilled tt) ->
      UsersService.unique_logins t' = true).
Proof.
  unfold UsersService.unique_logins. intros Hunique. split.
  - intros user t' u Hrun.
    apply createUser_fulfilled in Hrun as (Hfree & Hu & ->).
    rewrite map_app. cbn [map].
    rewrite distinct_strings_snoc, Hunique, existsb_login.
    rewrite Hu. cbn [UsersService.record_of UsersService.user_login
                       UsersService.with_password UsersService.login].
    rewrite find_existsb, Hfree. reflexivity.
  - intros i t' Hrun.
    apply deleteUser_fulfilled in Hrun as (_ & ->).
    apply distinct_logins_filter, Hunique.
Qed.

Lemma unique_logins_preserved_witness :
  UsersService.unique_logins [UsersService.ann_row] = true /\
  UsersService.unique_logins [] = true.
Proof.
  split.
  - apply (proj1 (unique_logins_preserved
                    UsersService.quiet UsersService.salt_of_size
                    UsersService.tagged_hash [] eq_refl)
             UsersService.ann [UsersService.ann_row] UsersService.ann_row).
    reflexivity.
  - apply (proj2 (unique_logins_preserved
                    UsersService.quiet UsersService.salt_of_size
                    UsersService.tagged_hash [UsersService.ann_row] eq_refl)
             1 []).
    reflexivity.
Defined.

(** X26: For an existing user, a database error of the delete statement comes
    out of [deleteUser] as it is, while a database error of the update
    statement comes out of [updateUser] as the
    [InternalServerErrorException] "Database error occurred", whatever it
    was; neither call has written. *)
Theorem deleteUser_propagates_updateUser_wraps fault i t u :
  fault (UsersService.FindUniqueId i) t = None ->
  find (UsersService.has_id i) t = Some u ->
  (forall t1 e,
      UsersService.user_delete fault i t = (t1, Rejected e) ->
      UsersService.deleteUser fault i t = (t, Rejected e)) /\
  (forall user t1 e,
      UsersService.user_update fault i user t = (t1, Rejected e) ->
      UsersService.updateUser fault i user t
      = (t, Rejected (InternalServerErrorException "Database error occurred"))).
Proof.
  intros Hanswered Hfound. split.
  - intros t1 e Hdel.
    pose proof (user_command_rejected _ _ _ _ _ _ Hdel) as ->.
    unfold UsersService.deleteUser. unfold UsersService.bind at 1.
    unfold UsersService.user_findUnique_id.
    rewrite (user_query_answered _ _ _ _ Hanswered), Hfound.
    unfold UsersService.bind. rewrite Hdel. reflexivity.
  - intros user t1 e Hupd.
    pose proof (user_command_rejected _ _ _ _ _ _ Hupd) as ->.
    unfold UsersService.updateUser, UsersService.bind.
    unfold UsersService.user_findUnique_id.
    rewrite (user_query_answered _ _ _ _ Hanswered), Hfound.
    unfold UsersService.try_catch. rewrite Hupd. reflexivity.
Qed.

Lemma deleteUser_propagates_updateUser_wraps_witness :
  UsersService.deleteUser UsersService.delete_fails 1 [UsersService.ann_row]
  = ([UsersService.ann_row],
     Rejected (PrismaError "Foreign key constraint failed")) /\
  UsersService.updateUser UsersService.update_fails 1 UsersService.ann
    [UsersService.ann_row]
  = ([UsersService.ann_row],
     Rejected (InternalServerErrorException "Database error occurred")).
Proof.
  split.
  - apply (proj1 (deleteUser_propagates_updateUser_wraps
                    UsersService.delete_fails 1 [UsersService.ann_row]
                    UsersService.ann_row eq_refl eq_refl)
             [UsersService.ann_row]).
    reflexivity.
  - apply (proj2 (deleteUser_propagates_updateUser_wraps
                    UsersService.update_fails 1 [UsersService.ann_row]
                    UsersService.ann_row eq_refl eq_refl)
             UsersService.ann [UsersService.ann_row]
             (PrismaError "connection lost")).
    reflexivity.
Defined.

(** When the salt generator is rejected, [createUser] is rejected with
    that very error and nothing is written. *)
Lemma createUser_genSalt_rejected fault genSalt hash user t e :
  fault (UsersService.FindUniqueLogin (UsersService.login user)) t = None ->
  find (UsersService.has_login (UsersService.login user)) t = None ->
  fault UsersService.GenSalt t = Some e ->
  UsersService.createUser fault genSalt hash user t = (t, Rejected e).
Proof.
  intros Hanswered Hfree Hsalt.
  unfold UsersService.createUser. unfold UsersService.bind at 1.
  unfold UsersService.user_findUnique_login.
  rewrite (user_query_answered _ _ _ _ Hanswered), Hfree.
  unfold UsersService.bind at 1. unfold UsersService.bcrypt_genSalt.
  rewrite Hsalt. reflexivity.
Qed.
